(** * Packed attestation statement verification (keycloud/webauthn)

    A shallow embedding of [attestation/packed/packed.go] and the properties
    of its verifier [verifyPacked].

    The Go file is a thin layer of control flow over the Go standard library
    ([crypto/x509], [crypto/ecdsa], [crypto/sha256], [encoding/asn1]) and the
    repository's own [protocol] package.  The embedding keeps that layering:

    - the statement map, the authenticator data and the certificate fields
      the code reads are records and inductive types;
    - the cryptographic library entry points are fields of an environment
      record [GoEnv]; every call the code makes to them is logged in a trace,
      so that "which library calls happen, and in which order" is a
      statement about the model;
    - [encoding/asn1.Unmarshal] is modelled concretely for the two recipient
      values the code passes to it;
    - a Go function either returns [nil], returns an error, or panics:
      [result] has the three cases. *)

From Stdlib Require Import ZArith List Lia.
From Stdlib.Strings Require Byte.
From stdpp Require Import base option list strings gmap.
Import ListNotations.

Local Open Scope string_scope.
Local Open Scope Z_scope.

(** ** Bytes *)

(** Go's [byte]; the constructors stay qualified ([Byte.x5c]), so that Go
    names such as [x5c] remain ordinary identifiers. *)
Abbreviation byte := Byte.byte.
Abbreviation bytes := (list byte).

(** [B n] is the byte with value [n] (for [n < 256]). *)
Definition B (n : N) : byte :=
  match Byte.of_N n with Some b => b | None => Byte.x00 end.

Definition byte_val (b : byte) : Z := Z.of_N (Byte.to_N b).

(** ** Values of Go's [interface{}] found in the statement map

    [a.AttStmt] is a [map[string]interface{}].  The verifier only ever
    asserts three dynamic types ([int64], [[]byte], [[]interface{}]); every
    other dynamic type behaves the same for it and is kept by name. *)
#[warnings="-register-all"]
Inductive Any : Type :=
  | VNil
  | VInt64 (n : Z)
  | VBytes (b : bytes)
  | VArray (l : list Any)
  | VOther (go_type : string).

(** ** Elliptic-curve public keys ([crypto/ecdsa], [crypto/elliptic]) *)

(** A non-nil [elliptic.Curve] interface value: one of the standard
    library's curves, or any other implementation, given by what its
    [Params()] returns: [None] is a nil [*CurveParams], [Some name] is a
    [*CurveParams] whose [Name] is [name]. *)
Inductive elliptic_Curve : Type :=
  | P224 | P256 | P384 | P521
  | OtherCurve (params : option string).

Definition curve_eqb (c d : elliptic_Curve) : bool :=
  match c, d with
  | P224, P224 | P256, P256 | P384, P384 | P521, P521 => true
  | OtherCurve n, OtherCurve m => if decide (n = m) then true else false
  | _, _ => false
  end.

(** [c.Params().Name]: [None] when [c.Params()] is nil, in which case
    reading [Name] dereferences a nil pointer. *)
Definition curve_Params_Name (c : elliptic_Curve) : option string :=
  match c with
  | P224 => Some "P-224" | P256 => Some "P-256"
  | P384 => Some "P-384" | P521 => Some "P-521"
  | OtherCurve params => params
  end.

(** [ecdsa.PublicKey]: the embedded [elliptic.Curve] is an interface value
    and may be [nil]. *)
Record ecdsa_PublicKey : Type := {
  Curve : option elliptic_Curve;
  X : Z;
  Y : Z
}.

(** The [COSEKey interface{}] of the attested credential data.  A
    [*ecdsa.PublicKey] is a pointer: [None] is the typed nil pointer. *)
Inductive COSEKey_value : Type :=
  | KeyNil
  | KeyECDSA (v : option ecdsa_PublicKey)
  | KeyOther (go_type : string).

(** ** Authenticator data and attestation ([protocol] package, read only) *)

Record AttestedCredentialData_t : Type := {
  AAGUID : bytes;
  COSEKey : COSEKey_value
}.

Record AuthenticatorData : Type := {
  Raw : bytes;
  AttestedCredentialData : AttestedCredentialData_t
}.

Record Attestation : Type := {
  AuthData : AuthenticatorData;
  AttStmt : gmap string Any
}.

(** Modelled from the spec: the constant [protocol.ES256] is declared in the
    [protocol] package, which is not part of the sources at hand; the spec
    gives its value ("alg = -7 (ES256)"). *)
Definition ES256 : Z := -7.

(** ** X.509 certificates ([crypto/x509]), the fields the verifier reads *)

Inductive x509_SignatureAlgorithm : Type :=
  | UnknownSignatureAlgorithm
  | MD2WithRSA | MD5WithRSA | SHA1WithRSA
  | SHA256WithRSA | SHA384WithRSA | SHA512WithRSA
  | DSAWithSHA1 | DSAWithSHA256
  | ECDSAWithSHA1 | ECDSAWithSHA256 | ECDSAWithSHA384 | ECDSAWithSHA512
  | SHA256WithRSAPSS | SHA384WithRSAPSS | SHA512WithRSAPSS
  | PureEd25519.

Definition ObjectIdentifier := list Z.

Record pkix_Extension : Type := {
  Id : ObjectIdentifier;
  Critical : bool;
  Value : bytes
}.

Record x509_Certificate : Type := {
  cert_Raw : bytes;
  SignatureAlgorithm : x509_SignatureAlgorithm;
  Version : Z;
  IsCA : bool;
  Extensions : list pkix_Extension
}.

(** [var extensionIDFIDOGenCAAAGUID = asn1.ObjectIdentifier{1, 3, 6, 1, 4, 1, 45724, 1, 1, 4}] *)
Definition extensionIDFIDOGenCAAAGUID : ObjectIdentifier :=
  [1; 3; 6; 1; 4; 1; 45724; 1; 1; 4].

(** [ObjectIdentifier.Equal]: same length and same arcs. *)
Definition oid_Equal (oi other : ObjectIdentifier) : bool :=
  if decide (oi = other) then true else false.

(** ** Errors *)

(** Errors of [encoding/asn1].  [StructuralError] and [SyntaxError] carry
    Go's static message; the "tags don't match" message of Go also prints
    the expected and the found tag, which the model leaves out. *)
Inductive asn1_error : Type :=
  | SyntaxError (msg : string)
  | StructuralError (msg : string)
  | InvalidUnmarshalError (recipient_type : string)
  | InternalError.

(** An error value produced by one of the libraries. *)
Inductive lib_error : Type :=
  | Asn1Error (e : asn1_error)
  | X509Error (msg : string)
  | CryptoError (msg : string).

(** Arguments of a [WithDebugf] format, kept unrendered. *)
Inductive fmt_arg : Type :=
  | ArgError (e : lib_error)        (* %v of an error *)
  | ArgTypeOfValue (v : Any)      (* %T of a statement value *)
  | ArgTypeOfKey (k : COSEKey_value) (* %T of the credential key *)
  | ArgString (s : string).         (* %s *)

(** Modelled from the spec: the error type of the [protocol] package, which
    is not part of the sources at hand.  Spec: every failure is "a typed
    result carrying a human-readable debug detail and, where applicable, the
    underlying decode/crypto error as a chained cause".  [Name] identifies
    the typed error; [Debug] is the debug detail (format and arguments);
    [Cause] is the chained cause. *)
Record Error : Type := {
  Name : string;
  Debug : option (string * list fmt_arg);
  Cause : option lib_error
}.

(** Modelled from the spec: the method [WithDebug] of the [protocol]
    error type (not part of the sources at hand) attaches the "human-readable
    debug detail" and leaves the rest of the error as it is. *)
Definition WithDebug (e : Error) (debug : string) : Error :=
  {| Name := Name e; Debug := Some (debug, []); Cause := Cause e |}.

(** Modelled from the spec: the method [WithDebugf] of the [protocol] error
    type, [WithDebug] with a format and its arguments. *)
Definition WithDebugf (e : Error) (format : string) (args : list fmt_arg) : Error :=
  {| Name := Name e; Debug := Some (format, args); Cause := Cause e |}.

(** Modelled from the spec: the method [WithCause] of the [protocol] error
    type attaches "the underlying decode/crypto error as a chained cause". *)
Definition WithCause (e : Error) (cause : lib_error) : Error :=
  {| Name := Name e; Debug := Debug e; Cause := Some cause |}.

(** Run-time panics of the Go code. *)
Inductive panic : Type :=
  | IndexOutOfRange (index len : Z)
  | NilDereference
  | ReflectElemOfNonPointer.

(** What a call of a verifier function does: return [nil], return an error,
    or panic. *)
Inductive result : Type :=
  | Success
  | Failure (e : Error)
  | Panic (p : panic).

(** ** [encoding/asn1]: DER tag-and-length parsing

    Go indexes [bytes] with a running [offset]; the model passes the
    remaining suffix instead, so [offset >= len(bytes)] reads "the suffix is
    empty" and every function returns the suffix left after it. *)

Record tagAndLength : Type := {
  tl_class : Z;
  tl_tag : Z;
  tl_length : Z;
  tl_isCompound : bool
}.

Definition ClassUniversal : Z := 0.
Definition TagOctetString : Z := 4.
Definition MaxInt32 : Z := 2147483647.

(** The loop of [parseBase128Int]; [shifted] counts the bytes read. *)
Fixpoint parseBase128Int_loop (bs : bytes) (shifted : nat) (ret64 : Z)
  : asn1_error + (Z * bytes) :=
  match bs with
  | [] => inl (SyntaxError "truncated base 128 integer")
  | b :: rest =>
      if Nat.eqb shifted 5 then inl (StructuralError "base 128 integer too large")
      else
        let ret64 := Z.shiftl ret64 7 in
        if Nat.eqb shifted 0 && (byte_val b =? 0x80)
        then inl (SyntaxError "integer is not minimally encoded")
        else
          let ret64 := Z.lor ret64 (Z.land (byte_val b) 0x7f) in
          if Z.land (byte_val b) 0x80 =? 0 then
            if ret64 >? MaxInt32
            then inl (StructuralError "base 128 integer too large")
            else inr (ret64, rest)
          else parseBase128Int_loop rest (S shifted) ret64
  end.

Definition parseBase128Int (bs : bytes) : asn1_error + (Z * bytes) :=
  parseBase128Int_loop bs 0 0.

(** The long-form length loop of [parseTagAndLength]: [numBytes] length
    bytes follow. *)
Fixpoint parseLength_loop (bs : bytes) (numBytes : nat) (len : Z)
  : asn1_error + (Z * bytes) :=
  match numBytes with
  | O => inr (len, bs)
  | S n =>
      match bs with
      | [] => inl (SyntaxError "truncated tag or length")
      | b :: rest =>
          if len >=? Z.shiftl 1 23 then inl (StructuralError "length too large")
          else
            let len := Z.lor (Z.shiftl len 8) (byte_val b) in
            if len =? 0
            then inl (StructuralError "superfluous leading zeros in length")
            else parseLength_loop rest n len
      end
  end.

Definition parseTagAndLength (bs : bytes) : asn1_error + (tagAndLength * bytes) :=
  match bs with
  | [] => inl InternalError
  | b :: bs1 =>
      let class := Z.shiftr (byte_val b) 6 in
      let isCompound := Z.land (byte_val b) 0x20 =? 0x20 in
      let tag := Z.land (byte_val b) 0x1f in
      let tag_and_rest :=
        if tag =? 0x1f then
          match parseBase128Int bs1 with
          | inl e => inl e
          | inr (t, bs2) =>
              if t <? 0x1f then inl (SyntaxError "non-minimal tag") else inr (t, bs2)
          end
        else inr (tag, bs1) in
      match tag_and_rest with
      | inl e => inl e
      | inr (tag, bs2) =>
          match bs2 with
          | [] => inl (SyntaxError "truncated tag or length")
          | b :: bs3 =>
              if Z.land (byte_val b) 0x80 =? 0 then
                inr ({| tl_class := class; tl_tag := tag;
                        tl_length := Z.land (byte_val b) 0x7f;
                        tl_isCompound := isCompound |}, bs3)
              else
                let numBytes := Z.land (byte_val b) 0x7f in
                if numBytes =? 0
                then inl (SyntaxError "indefinite length found (not DER)")
                else
                  match parseLength_loop bs3 (Z.to_nat numBytes) 0 with
                  | inl e => inl e
                  | inr (len, bs4) =>
                      if len <? 0x80 then inl (StructuralError "non-minimal length")
                      else inr ({| tl_class := class; tl_tag := tag;
                                   tl_length := len;
                                   tl_isCompound := isCompound |}, bs4)
                  end
          end
      end
  end.

(** [parseField] at a recipient of Go type [[]byte], at offset 0 and with no
    field parameters: the element must be a primitive universal OCTET
    STRING; its contents are copied out. Returns the contents and the
    bytes after the element. *)
Definition parseField_bytes (bs : bytes) : asn1_error + (bytes * bytes) :=
  match bs with
  | [] => inl (SyntaxError "sequence truncated")
  | _ =>
      match parseTagAndLength bs with
      | inl e => inl e
      | inr (t, rest) =>
          if negb (tl_class t =? ClassUniversal)
             || negb (tl_tag t =? TagOctetString)
             || tl_isCompound t
          then inl (StructuralError "tags don't match")
          else if tl_length t >? Z.of_nat (length rest)
          then inl (SyntaxError "data truncated")
          else inr (take (Z.to_nat (tl_length t)) rest,
                    drop (Z.to_nat (tl_length t)) rest)
      end
  end.

(** ** [asn1.Unmarshal(b, val)]

    [Unmarshal] inspects [val] by reflection.  The code under study passes
    two kinds of recipient: [&aaguid], a pointer to a [[]byte], and
    [signature], a [[]*big.Int] passed by value (not a pointer). *)
Inductive recipient : Type :=
  | PtrToBytes
  | SliceOfBigInt (elems : list (option Z)).

(** What Go does with a recipient that is not a pointer: current Go
    returns an error ("If val is nil or not a pointer, Unmarshal returns an
    error"); older releases called [reflect.Value.Elem] on it, which
    panics. *)
Inductive non_pointer_behaviour : Type :=
  | ReturnsError
  | Panics.

(** The two results [rest, err] of [Unmarshal] ([None] is Go's [nil]) and
    the recipient after the call.  With an error [rest] is [nil]; on success
    it is the slice [b[offset:]], which is not [nil] even when it is empty. *)
Record unmarshaled : Type := {
  um_rest : option bytes;
  um_err : option asn1_error;
  um_bytes : bytes;                 (* the []byte behind a PtrToBytes *)
  um_ints : list (option Z)         (* the elements of a SliceOfBigInt *)
}.

Definition asn1_Unmarshal (np : non_pointer_behaviour) (b : bytes) (val : recipient)
  : panic + unmarshaled :=
  match val with
  | PtrToBytes =>
      match parseField_bytes b with
      | inl e => inr {| um_rest := None; um_err := Some e;
                        um_bytes := []; um_ints := [] |}
      | inr (contents, rest) =>
          inr {| um_rest := Some rest; um_err := None;
                 um_bytes := contents; um_ints := [] |}
      end
  | SliceOfBigInt elems =>
      match np with
      | ReturnsError =>
          inr {| um_rest := None;
                 um_err := Some (InvalidUnmarshalError "[]*big.Int");
                 um_bytes := []; um_ints := elems |}
      | Panics => inl ReflectElemOfNonPointer
      end
  end.

(** ** The library environment and the call trace *)

Record GoEnv : Type := {
  (* protocol.ErrInvalidAttestation, declared in the protocol package *)
  ErrInvalidAttestation : Error;
  (* x509.ParseCertificate(der) *)
  x509_ParseCertificate : bytes -> lib_error + x509_Certificate;
  (* cert.CheckSignature(algo, signed, signature); None is a nil error *)
  CheckSignature : x509_Certificate -> x509_SignatureAlgorithm -> bytes -> bytes -> option lib_error;
  (* sha256.Sum256(data) *)
  sha256_Sum256 : bytes -> bytes;
  (* ecdsa.Verify(pub, hash, r, s) *)
  ecdsa_Verify : ecdsa_PublicKey -> bytes -> Z -> Z -> bool;
  (* the Go release's treatment of a non-pointer Unmarshal recipient *)
  unmarshal_non_pointer : non_pointer_behaviour
}.

(** A call into the cryptographic or decoding libraries. *)
Inductive Call : Type :=
  | CallParseCertificate (der : bytes)
  | CallCheckSignature (cert : x509_Certificate) (algo : x509_SignatureAlgorithm)
                       (signed signature : bytes)
  | CallUnmarshal (b : bytes) (val : recipient)
  | CallSum256 (data : bytes)
  | CallVerify (pub : ecdsa_PublicKey) (hash : bytes) (r s : Z).

(** ** A small monad for Go function bodies

    A computation logs the library calls it makes and either has executed a
    [return] (or panicked) with a [result], or goes on with a value. *)
Definition Go (A : Type) : Type := list Call * (result + A).

Definition go_pure {A} (a : A) : Go A := ([], inr a).

Definition go_return {A} (r : result) : Go A := ([], inl r).

Definition go_bind {A C} (m : Go A) (k : A -> Go C) : Go C :=
  match m with
  | (t, inl r) => (t, inl r)
  | (t, inr a) => let '(t', x) := k a in ((t ++ t')%list, x)
  end.

Definition go_call {A} (c : Call) (a : A) : Go A := ([c], inr a).

(** A function body always ends in a [return]: running it gives the trace
    and the result. *)
Definition go_run (m : Go result) : list Call * result :=
  match m with
  | (t, inl r) => (t, r)
  | (t, inr r) => (t, r)
  end.

Declare Scope go_scope.
Delimit Scope go_scope with go.
Notation "'let*' x ':=' m 'in' k" := (go_bind m (fun x => k))
  (at level 10, x name, m at level 100, k at level 200) : go_scope.

(** [bytes.Equal(a, b)]: same length and same bytes (a nil slice equals an
    empty one). *)
Fixpoint bytes_Equal (a b : bytes) : bool :=
  match a, b with
  | [], [] => true
  | x :: a', y :: b' => Byte.eqb x y && bytes_Equal a' b'
  | _, _ => false
  end.

(** ** The verifier *)

Section Verifier.
Context (E : GoEnv).
Local Open Scope go_scope.

(** The loop [for _, ext := range cert.Extensions] of [verifyBasic]:
    returns early on a critical device-model extension, otherwise leaves
    the value of the last such extension in [aaguidValue]. *)
Fixpoint scan_extensions (exts : list pkix_Extension) (aaguidValue : bytes)
  : result + bytes :=
  match exts with
  | [] => inr aaguidValue
  | ext :: exts' =>
      if oid_Equal (Id ext) extensionIDFIDOGenCAAAGUID then
        if Critical ext then
          inl (Failure (WithDebugf (ErrInvalidAttestation E)
                 "extension id-fido-gen-ce-aaguid is present, but is marked as critical" []))
        else scan_extensions exts' (Value ext)
      else scan_extensions exts' aaguidValue
  end.

Definition verifyBasic (a : Attestation) (clientDataHash : bytes)
    (alg : Z) (sig : bytes) : list Call * result :=
  go_run (
    match AttStmt a !! "x5c" with
    | Some (VArray x5c) =>
        match x5c with
        | [] => go_return (Panic (IndexOutOfRange 0 0))
        | VBytes attestnCert :: _ =>
            let* parsed := go_call (CallParseCertificate attestnCert)
                                   (x509_ParseCertificate E attestnCert) in
            match parsed with
            | inl err =>
                go_return (Failure (WithDebugf (ErrInvalidAttestation E)
                                      "invalid x5c for packed: %v" [ArgError err]))
            | inr cert =>
                let signedBytes := (Raw (AuthData a) ++ clientDataHash)%list in
                let* err := go_call
                    (CallCheckSignature cert (SignatureAlgorithm cert) signedBytes sig)
                    (CheckSignature E cert (SignatureAlgorithm cert) signedBytes sig) in
                let* _ :=
                  match err with
                  | None => go_pure tt
                  | Some _ =>
                      let* err := go_call
                          (CallCheckSignature cert ECDSAWithSHA256 signedBytes sig)
                          (CheckSignature E cert ECDSAWithSHA256 signedBytes sig) in
                      match err with
                      | Some err =>
                          go_return (Failure (WithDebugf (ErrInvalidAttestation E)
                                       "invalid signature for packed: %v" [ArgError err]))
                      | None => go_pure tt
                      end
                  end in
                if negb (Version cert =? 3) then
                  go_return (Failure (WithDebug (ErrInvalidAttestation E)
                                        "invalid version for certificate"))
                else if IsCA cert then
                  go_return (Failure (WithDebug (ErrInvalidAttestation E)
                                        "CA is set for certificate"))
                else
                  match scan_extensions (Extensions cert) [] with
                  | inl r => go_return r
                  | inr aaguidValue =>
                      if 0 <? Z.of_nat (length aaguidValue) then
                        let* u := go_call (CallUnmarshal aaguidValue PtrToBytes)
                                    (asn1_Unmarshal (unmarshal_non_pointer E)
                                                    aaguidValue PtrToBytes) in
                        match u with
                        | inl p => go_return (Panic p)
                        | inr u =>
                            match um_err u with
                            | Some err =>
                                go_return (Failure (WithDebugf (ErrInvalidAttestation E)
                                             "invalid AAGUID: %v" [ArgError (Asn1Error err)]))
                            | None =>
                                if negb (bytes_Equal
                                           (AAGUID (AttestedCredentialData (AuthData a)))
                                           (um_bytes u))
                                then go_return (Failure (WithDebugf (ErrInvalidAttestation E)
                                                           "invalid AAGUID" []))
                                else go_pure Success
                            end
                        end
                      else go_pure Success
                  end
            end
        | _ :: _ =>
            go_return (Failure (WithDebug (ErrInvalidAttestation E)
                                  "invalid x5c for packed"))
        end
    | _ =>
        go_return (Failure (WithDebug (ErrInvalidAttestation E)
                              "invalid x5c for packed"))
    end).

Definition verifyECDAA (a : Attestation) (clientDataHash : bytes)
    (alg : Z) (sig : bytes) : list Call * result :=
  go_run (go_return (Failure (WithDebugf (ErrInvalidAttestation E)
                                "unsupported packed format ECDAA" []))).

(** [v.Curve != elliptic.P256()] on the interface value [v.Curve]. *)
Definition curve_is_not_P256 (c : option elliptic_Curve) : bool :=
  match c with
  | Some c => negb (curve_eqb c P256)
  | None => true
  end.

Definition verifySelf (a : Attestation) (clientDataHash : bytes)
    (alg : Z) (sig : bytes) : list Call * result :=
  go_run (
    let signedBytes := (Raw (AuthData a) ++ clientDataHash)%list in
    match COSEKey (AttestedCredentialData (AuthData a)) with
    | KeyECDSA None =>
        (* v is a nil *ecdsa.PublicKey: reading v.Curve dereferences it *)
        go_return (Panic NilDereference)
    | KeyECDSA (Some v) =>
        if negb (alg =? ES256) || curve_is_not_P256 (Curve v) then
          match Curve v with
          | None =>
              (* v.Curve.Params() on a nil interface *)
              go_return (Panic NilDereference)
          | Some c =>
              match curve_Params_Name c with
              | None =>
                  (* v.Curve.Params() is nil: reading .Name dereferences it *)
                  go_return (Panic NilDereference)
              | Some name =>
                  go_return (Failure (WithDebugf (ErrInvalidAttestation E)
                               "unsupported packed self attestation ECDSA key curve %s"
                               [ArgString name]))
              end
          end
        else
          let signature : list (option Z) := [None; None] in
          let* u := go_call (CallUnmarshal sig (SliceOfBigInt signature))
                      (asn1_Unmarshal (unmarshal_non_pointer E)
                                      sig (SliceOfBigInt signature)) in
          match u with
          | inl p => go_return (Panic p)
          | inr u =>
              match um_err u, um_rest u with
              | Some err, _ =>
                  go_return (Failure (WithCause
                               (WithDebugf (ErrInvalidAttestation E)
                                  "invalid ECDSA signature: %v" [ArgError (Asn1Error err)])
                               (Asn1Error err)))
              | None, Some _ =>
                  go_return (Failure (WithDebugf (ErrInvalidAttestation E)
                                        "invalid ECDSA signature: too much data" []))
              | None, None =>
                  let* hash := go_call (CallSum256 signedBytes)
                                       (sha256_Sum256 E signedBytes) in
                  match um_ints u with
                  | Some r :: Some s :: _ =>
                      let* ok := go_call (CallVerify v hash r s)
                                         (ecdsa_Verify E v hash r s) in
                      if negb ok then
                        go_return (Failure (WithDebugf (ErrInvalidAttestation E)
                                              "invalid signature for packed" []))
                      else go_pure Success
                  | _ =>
                      (* ecdsa.Verify on a nil *big.Int *)
                      go_return (Panic NilDereference)
                  end
              end
          end
    | k =>
        go_return (Failure (WithDebugf (ErrInvalidAttestation E)
                     "unsupported packed self attestation public key type %T"
                     [ArgTypeOfKey k]))
    end).

Definition verifyPacked (a : Attestation) (clientDataHash : bytes)
  : list Call * result :=
  match AttStmt a !! "alg" with
  | None =>
      go_run (go_return (Failure (WithDebug (ErrInvalidAttestation E)
                                    "missing alg for packed")))
  | Some (VInt64 algInt) =>
      (* protocol.COSEAlgorithmIdentifier(algInt): taken as value-preserving *)
      let alg := algInt in
      match AttStmt a !! "sig" with
      | None =>
          go_run (go_return (Failure (WithDebug (ErrInvalidAttestation E)
                                        "missing sig for packed")))
      | Some (VBytes sig) =>
          if bool_decide (is_Some (AttStmt a !! "x5c")) then
            verifyBasic a clientDataHash alg sig
          else if bool_decide (is_Some (AttStmt a !! "ecdaaKeyId")) then
            verifyECDAA a clientDataHash alg sig
          else
            verifySelf a clientDataHash alg sig
      | Some _ =>
          go_run (go_return (Failure (WithDebug (ErrInvalidAttestation E)
                                        "invalid sig for packed")))
      end
  | Some rawAlg =>
      go_run (go_return (Failure (WithDebugf (ErrInvalidAttestation E)
                           "invalid alg for packed, is of invalid type %T"
                           [ArgTypeOfValue rawAlg])))
  end.

End Verifier.

(** ** The spec's error taxonomy *)

Inductive ErrorKind : Type :=
  | missing_field_or_wrong_type
  | invalid_certificate
  | invalid_signature
  | invalid_certificate_profile
  | invalid_extension
  | invalid_aaguid_encoding
  | aaguid_mismatch
  | unsupported_format
  | unsupported_key_or_algorithm
  | malformed_signature.

#[global] Instance ErrorKind_eq_dec : EqDecision ErrorKind.
Proof. solve_decision. Defined.

(** Modelled from the spec: the code has no error kinds, only debug texts;
    the table of section 7 names ten kinds by their trigger.  [taxonomy]
    assigns to each debug format of [packed.go] the kind whose trigger it
    reports. *)
Definition taxonomy : list (string * ErrorKind) :=
  [ ("missing alg for packed", missing_field_or_wrong_type);
    ("invalid alg for packed, is of invalid type %T", missing_field_or_wrong_type);
    ("missing sig for packed", missing_field_or_wrong_type);
    ("invalid sig for packed", missing_field_or_wrong_type);
    ("invalid x5c for packed", missing_field_or_wrong_type);
    ("invalid x5c for packed: %v", invalid_certificate);
    ("invalid signature for packed: %v", invalid_signature);
    ("invalid signature for packed", invalid_signature);
    ("invalid version for certificate", invalid_certificate_profile);
    ("CA is set for certificate", invalid_certificate_profile);
    ("extension id-fido-gen-ce-aaguid is present, but is marked as critical",
       invalid_extension);
    ("invalid AAGUID: %v", invalid_aaguid_encoding);
    ("invalid AAGUID", aaguid_mismatch);
    ("unsupported packed format ECDAA", unsupported_format);
    ("unsupported packed self attestation ECDSA key curve %s",
       unsupported_key_or_algorithm);
    ("unsupported packed self attestation public key type %T",
       unsupported_key_or_algorithm);
    ("invalid ECDSA signature: %v", malformed_signature);
    ("invalid ECDSA signature: too much data", malformed_signature) ].

Fixpoint kind_of_format (table : list (string * ErrorKind)) (format : string)
  : option ErrorKind :=
  match table with
  | [] => None
  | (f, k) :: table' =>
      if String.eqb f format then Some k else kind_of_format table' format
  end.

Definition error_kind (e : Error) : option ErrorKind :=
  match Debug e with
  | Some (format, _) => kind_of_format taxonomy format
  | None => None
  end.

(** The kind of failure of a result; [None] for success and for a panic. *)
Definition result_kind (r : result) : option ErrorKind :=
  match r with
  | Failure e => error_kind e
  | _ => None
  end.

(** The signature checks among the library calls of a trace, in order. *)
Fixpoint signature_checks (t : list Call)
  : list (x509_Certificate * x509_SignatureAlgorithm * bytes * bytes) :=
  match t with
  | [] => []
  | CallCheckSignature cert algo signed sig :: t' =>
      (cert, algo, signed, sig) :: signature_checks t'
  | _ :: t' => signature_checks t'
  end.

(** The [(r, s)] pairs handed to [ecdsa.Verify] in a trace, in order. *)
Fixpoint verify_calls (t : list Call) : list (Z * Z) :=
  match t with
  | [] => []
  | CallVerify _ _ r s :: t' => (r, s) :: verify_calls t'
  | _ :: t' => verify_calls t'
  end.

(** The byte strings handed to [asn1.Unmarshal] in a trace, in order. *)
Fixpoint unmarshal_calls (t : list Call) : list bytes :=
  match t with
  | [] => []
  | CallUnmarshal b _ :: t' => b :: unmarshal_calls t'
  | _ :: t' => unmarshal_calls t'
  end.

(** The calls of the self path's last step: hashing the signed payload and
    verifying [(r, s)] against the credential key. *)
Definition is_hash_or_verify (c : Call) : bool :=
  match c with
  | CallSum256 _ | CallVerify _ _ _ _ => true
  | _ => false
  end.

(** The device-model extensions of a certificate, in order. *)
Definition is_device_model (ext : pkix_Extension) : bool :=
  oid_Equal (Id ext) extensionIDFIDOGenCAAAGUID.

Definition device_model_extensions (exts : list pkix_Extension) : list pkix_Extension :=
  List.filter is_device_model exts.

(** ** DER encoding of an ECDSA signature

    The encoder side of the round trip the spec describes: a SEQUENCE of
    the two INTEGERs [r] and [s] (two's complement, minimal length). *)

Fixpoint be_bytes (n : nat) (z : Z) : bytes :=
  match n with
  | O => []
  | S n' => (be_bytes n' (z / 256) ++ [B (Z.to_N (z mod 256))])%list
  end.

Definition der_length (n : Z) : bytes :=
  if n <? 128 then [B (Z.to_N n)]
  else
    let k := Z.to_nat (Z.log2 n / 8 + 1) in
    B (Z.to_N (128 + Z.of_nat k)) :: be_bytes k n.

Definition integer_size (z : Z) : nat :=
  Z.to_nat ((Z.log2 (if z <? 0 then - z - 1 else z) + 1) / 8 + 1).

Definition der_integer (z : Z) : bytes :=
  let content := be_bytes (integer_size z) z in
  (B 0x02 :: der_length (Z.of_nat (length content)) ++ content)%list.

Definition der_ecdsa_signature (r s : Z) : bytes :=
  let content := (der_integer r ++ der_integer s)%list in
  (B 0x30 :: der_length (Z.of_nat (length content)) ++ content)%list.

(** A DER OCTET STRING with short-form length. *)
Definition der_octet_string (v : bytes) : bytes :=
  (B 0x04 :: der_length (Z.of_nat (length v)) ++ v)%list.

(** ** Sample inputs *)

Module Sample.

Definition protocol_error : Error :=
  {| Name := "invalid_attestation"; Debug := None; Cause := None |}.

Definition rejected : lib_error := CryptoError "x509: signature check failed".

(** A library in which [der] parses to [cert] (anything else is
    malformed) and [cert] accepts a signature exactly under the
    algorithms selected by [accepts]. *)
Definition env (der : bytes) (cert : x509_Certificate)
    (accepts : x509_SignatureAlgorithm -> bool) (np : non_pointer_behaviour) : GoEnv :=
  {| ErrInvalidAttestation := protocol_error;
     x509_ParseCertificate := fun b =>
       if bytes_Equal b der then inr cert
       else inl (X509Error "x509: malformed certificate");
     CheckSignature := fun _ algo _ _ =>
       if accepts algo then None else Some rejected;
     sha256_Sum256 := fun _ => repeat (B 0) 32;
     ecdsa_Verify := fun _ _ _ _ => true;
     unmarshal_non_pointer := np |}.

Definition leaf_der : bytes := [B 0x30; B 0x03; B 0x02; B 0x01; B 0x02].

Definition aaguid_zero : bytes := repeat (B 0) 16.
Definition aaguid_one : bytes := repeat (B 1) 16.

Definition device_model (critical : bool) (value : bytes) : pkix_Extension :=
  {| Id := extensionIDFIDOGenCAAAGUID; Critical := critical; Value := value |}.

Definition cert (is_ca : bool) (exts : list pkix_Extension) : x509_Certificate :=
  {| cert_Raw := leaf_der; SignatureAlgorithm := SHA256WithRSA;
     Version := 3; IsCA := is_ca; Extensions := exts |}.

Definition p256_key : ecdsa_PublicKey := {| Curve := Some P256; X := 1; Y := 2 |}.

Definition auth (key : COSEKey_value) : AuthenticatorData :=
  {| Raw := [B 1; B 2; B 3];
     AttestedCredentialData := {| AAGUID := aaguid_zero; COSEKey := key |} |}.

Definition hash : bytes := repeat (B 0xab) 32.

Definition some_sig : bytes := der_ecdsa_signature 1 1.

Definition statement (fields : list (string * Any)) : Attestation :=
  {| AuthData := auth (KeyECDSA (Some p256_key));
     AttStmt := list_to_map fields |}.

Definition basic_statement : Attestation :=
  statement [("alg", VInt64 ES256); ("sig", VBytes some_sig);
             ("x5c", VArray [VBytes leaf_der])].

Definition self_statement (sig : bytes) : Attestation :=
  statement [("alg", VInt64 ES256); ("sig", VBytes sig)].

Definition empty_x5c_statement : Attestation :=
  statement [("alg", VInt64 ES256); ("sig", VBytes some_sig); ("x5c", VArray [])].

Definition ecdaa_statement : Attestation :=
  statement [("alg", VInt64 ES256); ("sig", VBytes some_sig);
             ("ecdaaKeyId", VBytes [B 7])].

Definition ecdaa_and_x5c_statement : Attestation :=
  statement [("alg", VInt64 ES256); ("sig", VBytes some_sig);
             ("x5c", VOther "string"); ("ecdaaKeyId", VBytes [B 7])].

Definition no_alg_ecdaa_statement : Attestation :=
  statement [("sig", VBytes some_sig); ("ecdaaKeyId", VBytes [B 7])].

Definition accept_all (_ : x509_SignatureAlgorithm) : bool := true.
Definition accept_none (_ : x509_SignatureAlgorithm) : bool := false.
Definition accept_fallback (algo : x509_SignatureAlgorithm) : bool :=
  match algo with ECDSAWithSHA256 => true | _ => false end.

(** A device-model extension vouching for [aaguid_one], while the
    authenticator data of [statement] carries [aaguid_zero]. *)
Definition other_model : pkix_Extension :=
  device_model false (der_octet_string aaguid_one).

(** A CA certificate whose signature checks all fail. *)
Definition ca_cert : x509_Certificate := cert true [].
Definition ca_rejecting_env : GoEnv := env leaf_der ca_cert accept_none ReturnsError.
Definition ca_accepting_env : GoEnv := env leaf_der ca_cert accept_all ReturnsError.

(** A CA certificate with a mismatching device model, signature valid. *)
Definition ca_other_model_cert : x509_Certificate := cert true [other_model].
Definition ca_other_model_env : GoEnv :=
  env leaf_der ca_other_model_cert accept_all ReturnsError.

(** A leaf certificate whose mismatching device-model extension is marked
    critical, signature valid. *)
Definition critical_other_model_cert : x509_Certificate :=
  cert false [device_model true (der_octet_string aaguid_one)].
Definition critical_other_model_env : GoEnv :=
  env leaf_der critical_other_model_cert accept_all ReturnsError.

(** A leaf certificate with a mismatching device model, signature valid. *)
Definition other_model_cert : x509_Certificate := cert false [other_model].
Definition other_model_env : GoEnv :=
  env leaf_der other_model_cert accept_all ReturnsError.

(** A leaf certificate whose device-model extension has an empty value,
    signature valid. *)
Definition empty_model_cert : x509_Certificate := cert false [device_model false []].
Definition empty_model_env : GoEnv :=
  env leaf_der empty_model_cert accept_all ReturnsError.

(** A plain leaf certificate that mis-declares its algorithm: only the
    ECDSA-with-SHA-256 retry verifies. *)
Definition plain_cert : x509_Certificate := cert false [].
Definition fallback_env : GoEnv := env leaf_der plain_cert accept_fallback ReturnsError.

(** The self path needs no certificate. *)
Definition self_env (np : non_pointer_behaviour) : GoEnv :=
  env leaf_der plain_cert accept_all np.

(** A leaf certificate vouching for the AAGUID of [statement]; the
    extension value carries two more bytes after the OCTET STRING. *)
Definition same_model_cert : x509_Certificate :=
  cert false [other_model;
              device_model false (der_octet_string aaguid_zero ++ [B 0xde; B 0xad])].
Definition same_model_env : GoEnv := env leaf_der same_model_cert accept_fallback ReturnsError.

(** A leaf certificate whose device-model value is not an OCTET STRING. *)
Definition bad_encoding_cert : x509_Certificate :=
  cert false [device_model false [B 0x02; B 0x01; B 0x00]].
Definition bad_encoding_env : GoEnv := env leaf_der bad_encoding_cert accept_all ReturnsError.

(** A version-1 certificate that is also a CA. *)
Definition v1_cert : x509_Certificate :=
  {| cert_Raw := leaf_der; SignatureAlgorithm := ECDSAWithSHA256;
     Version := 1; IsCA := true; Extensions := [] |}.
Definition v1_env : GoEnv := env leaf_der v1_cert accept_all ReturnsError.

(** A library in which nothing parses as a certificate. *)
Definition no_cert_env : GoEnv := env [] plain_cert accept_all ReturnsError.

Definition plain_env : GoEnv := env leaf_der plain_cert accept_all ReturnsError.

Definition basic_and_ecdaa_statement : Attestation :=
  statement [("alg", VInt64 ES256); ("sig", VBytes some_sig);
             ("x5c", VArray [VBytes leaf_der]); ("ecdaaKeyId", VBytes [B 7])].

Definition misshapen_x5c_statement : Attestation :=
  statement [("alg", VInt64 ES256); ("sig", VBytes some_sig);
             ("x5c", VArray [VOther "string"; VBytes leaf_der])].

Definition curveless_key : ecdsa_PublicKey := {| Curve := None; X := 1; Y := 2 |}.

(** A key on a custom curve whose [Params()] returns nil. *)
Definition paramless_key : ecdsa_PublicKey :=
  {| Curve := Some (OtherCurve None); X := 1; Y := 2 |}.

Definition self_statement_with (key : COSEKey_value) (alg : Z) : Attestation :=
  {| AuthData := auth key;
     AttStmt := list_to_map [("alg", VInt64 alg); ("sig", VBytes some_sig)] |}.

End Sample.

(** The error of the extension loop. *)
Definition critical_extension_error (E : GoEnv) : Error :=
  WithDebugf (ErrInvalidAttestation E)
    "extension id-fido-gen-ce-aaguid is present, but is marked as critical" [].



(** Lines 78-84 of [verifyBasic] go on (do not return) exactly when the
    signature verifies under the declared algorithm or under the fallback. *)
Definition signature_accepted (E : GoEnv) (cert : x509_Certificate)
    (signed sig : bytes) : Prop :=
  CheckSignature E cert (SignatureAlgorithm cert) signed sig = None \/
  CheckSignature E cert ECDSAWithSHA256 signed sig = None.

(** * Properties *)

(** ** The encoder on small inputs *)

Example some_sig_bytes :
  Sample.some_sig = [B 0x30; B 0x06; B 0x02; B 0x01; B 0x01; B 0x02; B 0x01; B 0x01].
Proof. reflexivity. Qed.

Example der_integer_128 : der_integer 128 = [B 0x02; B 0x02; B 0x00; B 0x80].
Proof. reflexivity. Qed.

Example der_integer_neg129 : der_integer (-129) = [B 0x02; B 0x02; B 0xff; B 0x7f].
Proof. reflexivity. Qed.

(** ** Basic facts about the model *)

Lemma byte_val_B (n : N) : (n < 256)%N -> byte_val (B n) = Z.of_N n.
Proof.
  intros Hn. unfold byte_val, B.
  destruct (Byte.of_N n) as [b|] eqn:Hb.
  - now rewrite (@Byte.to_of_N n b Hb).
  - apply Byte.of_N_None_iff in Hb. lia.
Qed.

Lemma bytes_Equal_eq (a b : bytes) : bytes_Equal a b = true <-> a = b.
Proof.
  revert b. induction a as [|x a IH]; intros [|y b]; simpl; try easy.
  rewrite andb_true_iff, IH. split.
  - intros [Hxy ->]. f_equal. now apply Byte.byte_dec_bl.
  - intros [= -> ->]. split; [|reflexivity]. now apply Byte.byte_dec_lb.
Qed.

Lemma bytes_Equal_neq (a b : bytes) : bytes_Equal a b = false <-> a <> b.
Proof.
  rewrite <- bytes_Equal_eq. destruct (bytes_Equal a b); split; congruence.
Qed.

Section Dispatcher.
Context (E : GoEnv).

(** With [alg] an [int64], [sig] a byte string and [x5c] present, the
    dispatcher hands over to [verifyBasic]. *)
Lemma verifyPacked_basic a h alg sig :
  AttStmt a !! "alg" = Some (VInt64 alg) ->
  AttStmt a !! "sig" = Some (VBytes sig) ->
  is_Some (AttStmt a !! "x5c") ->
  verifyPacked E a h = verifyBasic E a h alg sig.
Proof.
  intros Halg Hsig Hx. unfold verifyPacked. rewrite Halg, Hsig.
  now rewrite bool_decide_eq_true_2.
Qed.

Lemma verifyPacked_ecdaa a h alg sig :
  AttStmt a !! "alg" = Some (VInt64 alg) ->
  AttStmt a !! "sig" = Some (VBytes sig) ->
  AttStmt a !! "x5c" = None ->
  is_Some (AttStmt a !! "ecdaaKeyId") ->
  verifyPacked E a h = verifyECDAA E a h alg sig.
Proof.
  intros Halg Hsig Hx Hk. unfold verifyPacked. rewrite Halg, Hsig, Hx.
  rewrite bool_decide_eq_false_2 by (intros [? ?]; discriminate).
  now rewrite bool_decide_eq_true_2.
Qed.

Lemma verifyPacked_self a h alg sig :
  AttStmt a !! "alg" = Some (VInt64 alg) ->
  AttStmt a !! "sig" = Some (VBytes sig) ->
  AttStmt a !! "x5c" = None ->
  AttStmt a !! "ecdaaKeyId" = None ->
  verifyPacked E a h = verifySelf E a h alg sig.
Proof.
  intros Halg Hsig Hx Hk. unfold verifyPacked. rewrite Halg, Hsig, Hx, Hk.
  now rewrite !bool_decide_eq_false_2 by (intros [? ?]; discriminate).
Qed.

(** C5. A statement without [alg] or [sig], or with [alg] not an [int64] or
    [sig] not a byte string, fails with a missing-field / wrong-type error,
    and the verifier makes no call into the certificate, signature, hash or
    decoding libraries. *)
Theorem verifyPacked_ill_typed_fields a h :
  (forall n, AttStmt a !! "alg" <> Some (VInt64 n)) \/
  (forall b, AttStmt a !! "sig" <> Some (VBytes b)) ->
  fst (verifyPacked E a h) = [] /\
  result_kind (snd (verifyPacked E a h)) = Some missing_field_or_wrong_type.
Proof.
  intros H. unfold verifyPacked.
  destruct (AttStmt a !! "alg") as [[| n | | |]|] eqn:Halg;
    try (split; reflexivity).
  destruct (AttStmt a !! "sig") as [[| | b | |]|] eqn:Hsig;
    try (split; reflexivity).
  destruct H as [H | H]; [destruct (H n) | destruct (H b)]; reflexivity.
Qed.

(** C4 (as amended). A statement that contains [ecdaaKeyId], has an [int64]
    [alg] and a byte-string [sig], and has no [x5c], fails with the
    unsupported-format error whatever [sig], the authenticator data and the
    client-data hash are, and without any library call. *)
Theorem verifyPacked_ecdaa_unsupported a h alg sig :
  AttStmt a !! "alg" = Some (VInt64 alg) ->
  AttStmt a !! "sig" = Some (VBytes sig) ->
  AttStmt a !! "x5c" = None ->
  is_Some (AttStmt a !! "ecdaaKeyId") ->
  verifyPacked E a h =
    ([], Failure (WithDebugf (ErrInvalidAttestation E)
                    "unsupported packed format ECDAA" [])) /\
  result_kind (snd (verifyPacked E a h)) = Some unsupported_format.
Proof.
  intros Halg Hsig Hx Hk.
  rewrite (verifyPacked_ecdaa a h alg sig) by assumption.
  split; reflexivity.
Qed.

(** C2 (the code at the failing input). A statement whose [x5c] is an empty
    sequence makes [verifyPacked] panic on [x5c[0]]: index out of range. *)
Theorem verifyPacked_empty_x5c_panics auth alg sig other h :
  verifyPacked E
    {| AuthData := auth;
       AttStmt := <["alg" := VInt64 alg]> (<["sig" := VBytes sig]>
                    (<["x5c" := VArray []]> other)) |} h
  = ([], Panic (IndexOutOfRange 0 0)).
Proof.
  rewrite (verifyPacked_basic _ _ alg sig); simpl.
  - unfold verifyBasic. simpl. now simplify_map_eq.
  - now simplify_map_eq.
  - now simplify_map_eq.
  - simplify_map_eq. eauto.
Qed.

End Dispatcher.

(** ** The extension scan *)

Section ExtensionScan.
Context (E : GoEnv).

(** The scan returns early only with the critical-extension error. *)
Lemma scan_extensions_inl exts acc r :
  scan_extensions E exts acc = inl r -> r = Failure (critical_extension_error E).
Proof.
  revert acc. induction exts as [|ext exts IH]; intros acc; simpl; [discriminate|].
  destruct (oid_Equal (Id ext) extensionIDFIDOGenCAAAGUID); [|apply IH].
  destruct (Critical ext); [|apply IH].
  now intros [= <-].
Qed.

(** Without a critical device-model extension the scan ends with the value
    of the last device-model extension, or with the initial value when
    there is none. *)
Lemma scan_extensions_inr exts acc :
  Forall (fun ext => Critical ext = false) (device_model_extensions exts) ->
  scan_extensions E exts acc =
    inr (match last (device_model_extensions exts) with
         | Some ext => Value ext
         | None => acc
         end).
Proof.
  revert acc. induction exts as [|ext exts IH]; intros acc Hnc; simpl; [reflexivity|].
  unfold device_model_extensions in *. simpl in Hnc. unfold is_device_model in *.
  destruct (oid_Equal (Id ext) extensionIDFIDOGenCAAAGUID) eqn:Hid.
  - inversion Hnc as [|? ? Hc Hrest]; subst. rewrite Hc.
    rewrite IH by assumption. rewrite last_cons.
    now destruct (last _).
  - now apply IH.
Qed.

(** A critical device-model extension anywhere makes the scan return the
    critical-extension error. *)
Lemma scan_extensions_critical exts acc :
  Exists (fun ext => Critical ext = true) (device_model_extensions exts) ->
  scan_extensions E exts acc = inl (Failure (critical_extension_error E)).
Proof.
  revert acc. induction exts as [|ext exts IH]; intros acc Hc; simpl.
  - inversion Hc.
  - unfold device_model_extensions in *. simpl in Hc. unfold is_device_model in *.
    destruct (oid_Equal (Id ext) extensionIDFIDOGenCAAAGUID) eqn:Hid; [|now apply IH].
    destruct (Critical ext) eqn:Hcrit; [reflexivity|].
    apply IH. inversion Hc; subst; [congruence|assumption].
Qed.

End ExtensionScan.

(** ** [asn1.Unmarshal] at the two recipients *)

Lemma asn1_Unmarshal_bytes_err np b e :
  parseField_bytes b = inl e ->
  asn1_Unmarshal np b PtrToBytes =
    inr {| um_rest := None; um_err := Some e; um_bytes := []; um_ints := [] |}.
Proof. intros H. unfold asn1_Unmarshal. now rewrite H. Qed.

Lemma asn1_Unmarshal_bytes_ok np b v rest :
  parseField_bytes b = inr (v, rest) ->
  asn1_Unmarshal np b PtrToBytes =
    inr {| um_rest := Some rest; um_err := None; um_bytes := v; um_ints := [] |}.
Proof. intros H. unfold asn1_Unmarshal. now rewrite H. Qed.

(** A recipient passed by value is never decoded into: whatever the bytes,
    [Unmarshal] reports the invalid recipient (or panics, in old releases). *)
Lemma asn1_Unmarshal_non_pointer np b elems :
  asn1_Unmarshal np b (SliceOfBigInt elems) =
    match np with
    | ReturnsError =>
        inr {| um_rest := None; um_err := Some (InvalidUnmarshalError "[]*big.Int");
               um_bytes := []; um_ints := elems |}
    | Panics => inl ReflectElemOfNonPointer
    end.
Proof. reflexivity. Qed.

Lemma land_127_small (n : Z) : 0 <= n < 128 -> Z.land n 127 = n.
Proof.
  intros Hn. change 127 with (Z.ones 7). rewrite Z.land_ones by lia.
  apply Z.mod_small. change (2 ^ 7) with 128. lia.
Qed.

Lemma land_128_small (n : Z) : 0 <= n < 128 -> Z.land n 128 = 0.
Proof.
  intros Hn. apply Z.bits_inj'. intros k Hk. rewrite Z.land_spec, Z.bits_0.
  destruct (Z.eq_dec k 7) as [->|Hne].
  - destruct (Z.eq_dec n 0) as [->|Hn0]; [reflexivity|].
    rewrite (Z.bits_above_log2 n 7); [reflexivity|lia|].
    apply Z.log2_lt_pow2; [lia|]. change (2 ^ 7) with 128. lia.
  - change 128 with (2 ^ 7). rewrite (Z.pow2_bits_false 7 k) by lia.
    apply andb_false_r.
Qed.

Lemma parseTagAndLength_octet_string_short (n : N) (rest : bytes) :
  (n < 128)%N ->
  parseTagAndLength (B 4 :: B n :: rest) =
    inr ({| tl_class := ClassUniversal; tl_tag := TagOctetString;
            tl_length := Z.of_N n; tl_isCompound := false |}, rest).
Proof.
  intros Hn. unfold parseTagAndLength.
  rewrite (byte_val_B 4) by lia.
  change (Z.land (Z.of_N 4) 31) with 4. change (4 =? 31) with false.
  cbv beta iota zeta.
  rewrite (byte_val_B n) by lia.
  rewrite land_128_small, land_127_small by lia.
  reflexivity.
Qed.

(** Decoding a short OCTET STRING gives back its contents and the bytes
    that follow it. *)
Lemma parseField_bytes_octet_string (v trailing : bytes) :
  (length v < 128)%nat ->
  parseField_bytes (der_octet_string v ++ trailing) = inr (v, trailing).
Proof.
  intros Hlen. unfold der_octet_string, der_length.
  assert (Hlt : (Z.of_nat (length v) <? 128) = true) by (apply Z.ltb_lt; lia).
  rewrite Hlt. cbn [app].
  unfold parseField_bytes.
  rewrite parseTagAndLength_octet_string_short by lia.
  cbn [tl_class tl_tag tl_length tl_isCompound].
  change (negb (ClassUniversal =? ClassUniversal)
          || negb (TagOctetString =? TagOctetString) || false) with false.
  cbv beta iota. rewrite Z2N.id by lia. rewrite length_app.
  destruct (Z.of_nat (length v) >? Z.of_nat (length v + length trailing)) eqn:Hgt.
  - apply Z.gtb_lt in Hgt. lia.
  - rewrite Nat2Z.id. now rewrite take_app_length, drop_app_length.
Qed.

(** ** The basic (certificate-backed) path

    Throughout, the statement's [x5c] is a sequence whose element 0 is a byte
    string, and that byte string parses as the certificate [cert]. *)

Section BasicPath.
Context (E : GoEnv) (a : Attestation) (h : bytes) (alg : Z) (sig der : bytes).
Context (others : list Any) (cert : x509_Certificate).
Hypothesis Hx5c : AttStmt a !! "x5c" = Some (VArray (VBytes der :: others)).
Hypothesis Hparse : x509_ParseCertificate E der = inr cert.

Local Abbreviation signed := (Raw (AuthData a) ++ h)%list.
Local Abbreviation declared := (CheckSignature E cert (SignatureAlgorithm cert) signed sig).
Local Abbreviation fallback := (CheckSignature E cert ECDSAWithSHA256 signed sig).
Local Abbreviation EIA := (ErrInvalidAttestation E).

Ltac enter_basic :=
  unfold verifyBasic; rewrite Hx5c;
  cbn [go_bind go_call go_run go_return go_pure app fst snd]; rewrite Hparse;
  cbn [go_bind go_call go_run go_return go_pure app fst snd].

Ltac step_basic := cbn [go_bind go_call go_run go_return go_pure app fst snd].

(** Both attempts fail: the invalid-signature error, after exactly the two
    checks. *)
Lemma basic_both_fail e1 e2 :
  declared = Some e1 -> fallback = Some e2 ->
  verifyBasic E a h alg sig =
    ([CallParseCertificate der;
      CallCheckSignature cert (SignatureAlgorithm cert) signed sig;
      CallCheckSignature cert ECDSAWithSHA256 signed sig],
     Failure (WithDebugf EIA "invalid signature for packed: %v" [ArgError e2])).
Proof.
  intros H1 H2. enter_basic. rewrite H1. step_basic. rewrite H2. reflexivity.
Qed.

(** The signature checks made, in order: the declared algorithm first, the
    fallback only after a failure of the first. *)
Ltac split_rest :=
  repeat (step_basic; first
    [ reflexivity
    | match goal with
      | |- context [Version cert =? 3] => destruct (Version cert =? 3)
      | |- context [IsCA cert] => destruct (IsCA cert)
      | |- context [scan_extensions E (Extensions cert) []] =>
          destruct (scan_extensions E (Extensions cert) []) eqn:?
      | |- context [0 <? Z.of_nat (length ?v)] => destruct (0 <? Z.of_nat (length v))
      | |- context [asn1_Unmarshal ?np ?v PtrToBytes] =>
          destruct (asn1_Unmarshal np v PtrToBytes)
      | |- context [um_err ?u] => destruct (um_err u)
      | |- context [bytes_Equal ?x ?y] => destruct (bytes_Equal x y)
      end ]).

Lemma basic_signature_checks :
  signature_checks (fst (verifyBasic E a h alg sig)) =
    (cert, SignatureAlgorithm cert, signed, sig) ::
    match declared with
    | Some _ => [(cert, ECDSAWithSHA256, signed, sig)]
    | None => []
    end.
Proof.
  enter_basic.
  destruct declared as [e1|]; step_basic;
    [destruct fallback as [e2|]; step_basic; [reflexivity|]|];
    split_rest.
Qed.

(** Once the signature is accepted, the error is never the
    invalid-signature one. *)
Lemma basic_accepted_kind :
  signature_accepted E cert signed sig ->
  result_kind (snd (verifyBasic E a h alg sig)) <> Some invalid_signature.
Proof.
  intros Hacc. enter_basic.
  destruct declared as [e1|] eqn:H1; step_basic;
    [destruct fallback as [e2|] eqn:H2; step_basic;
       [destruct Hacc; congruence|]|];
    split_rest; try discriminate;
    match goal with
    | H : scan_extensions _ _ _ = inl _ |- _ =>
        apply scan_extensions_inl in H; subst; discriminate
    end.
Qed.

Ltac accepted_cases Hacc :=
  let H1 := fresh "H1" in
  let H2 := fresh "H2" in
  enter_basic;
  destruct declared as [?|] eqn:H1; step_basic;
    [destruct fallback as [?|] eqn:H2; step_basic;
       [destruct Hacc; congruence|]|].

Lemma basic_version :
  signature_accepted E cert signed sig ->
  Version cert <> 3 ->
  snd (verifyBasic E a h alg sig) =
    Failure (WithDebug EIA "invalid version for certificate").
Proof.
  intros Hacc Hv. apply Z.eqb_neq in Hv.
  accepted_cases Hacc; rewrite Hv; reflexivity.
Qed.

Lemma basic_is_ca :
  signature_accepted E cert signed sig ->
  Version cert = 3 ->
  IsCA cert = true ->
  snd (verifyBasic E a h alg sig) =
    Failure (WithDebug EIA "CA is set for certificate").
Proof.
  intros Hacc Hv Hca.
  accepted_cases Hacc; rewrite Hv, Hca; reflexivity.
Qed.

Lemma basic_scan_returns r :
  signature_accepted E cert signed sig ->
  Version cert = 3 ->
  IsCA cert = false ->
  scan_extensions E (Extensions cert) [] = inl r ->
  snd (verifyBasic E a h alg sig) = r.
Proof.
  intros Hacc Hv Hca Hscan.
  accepted_cases Hacc; rewrite Hv, Hca, Hscan; reflexivity.
Qed.

Lemma basic_empty_value :
  signature_accepted E cert signed sig ->
  Version cert = 3 ->
  IsCA cert = false ->
  scan_extensions E (Extensions cert) [] = inr [] ->
  snd (verifyBasic E a h alg sig) = Success.
Proof.
  intros Hacc Hv Hca Hscan.
  accepted_cases Hacc; rewrite Hv, Hca, Hscan; reflexivity.
Qed.

Lemma basic_decode_error v e :
  signature_accepted E cert signed sig ->
  Version cert = 3 ->
  IsCA cert = false ->
  scan_extensions E (Extensions cert) [] = inr v ->
  v <> [] ->
  parseField_bytes v = inl e ->
  snd (verifyBasic E a h alg sig) =
    Failure (WithDebugf EIA "invalid AAGUID: %v" [ArgError (Asn1Error e)]).
Proof.
  intros Hacc Hv Hca Hscan Hne Hdec.
  assert (Hlen : (0 <? Z.of_nat (length v)) = true)
    by (apply Z.ltb_lt; destruct v; [congruence | simpl; lia]).
  accepted_cases Hacc; rewrite Hv, Hca, Hscan; step_basic; rewrite Hlen;
    rewrite (asn1_Unmarshal_bytes_err _ _ _ Hdec); reflexivity.
Qed.

Lemma basic_decoded v decoded trailing :
  signature_accepted E cert signed sig ->
  Version cert = 3 ->
  IsCA cert = false ->
  scan_extensions E (Extensions cert) [] = inr v ->
  v <> [] ->
  parseField_bytes v = inr (decoded, trailing) ->
  snd (verifyBasic E a h alg sig) =
    if bytes_Equal (AAGUID (AttestedCredentialData (AuthData a))) decoded
    then Success
    else Failure (WithDebugf EIA "invalid AAGUID" []).
Proof.
  intros Hacc Hv Hca Hscan Hne Hdec.
  assert (Hlen : (0 <? Z.of_nat (length v)) = true)
    by (apply Z.ltb_lt; destruct v; [congruence | simpl; lia]).
  accepted_cases Hacc; rewrite Hv, Hca, Hscan; step_basic; rewrite Hlen;
    rewrite (asn1_Unmarshal_bytes_ok _ _ _ _ Hdec); step_basic;
    cbn [um_err um_bytes]; destruct (bytes_Equal _ _); reflexivity.
Qed.

End BasicPath.

(** ** Claims about the basic path *)

(** C7. On the basic path the signature is first checked with the
    certificate's declared algorithm over [authData.Raw ++ clientDataHash];
    the single retry with ECDSA-with-SHA-256 happens exactly when that
    check fails; and the invalid-signature error is the result exactly when
    both checks fail. *)
Theorem basic_signature_retry E a h alg sig der others cert :
  AttStmt a !! "alg" = Some (VInt64 alg) ->
  AttStmt a !! "sig" = Some (VBytes sig) ->
  AttStmt a !! "x5c" = Some (VArray (VBytes der :: others)) ->
  x509_ParseCertificate E der = inr cert ->
  signature_checks (fst (verifyPacked E a h)) =
    (cert, SignatureAlgorithm cert, (Raw (AuthData a) ++ h)%list, sig) ::
    match CheckSignature E cert (SignatureAlgorithm cert) (Raw (AuthData a) ++ h) sig with
    | Some _ => [(cert, ECDSAWithSHA256, (Raw (AuthData a) ++ h)%list, sig)]
    | None => []
    end
  /\ (result_kind (snd (verifyPacked E a h)) = Some invalid_signature <->
      is_Some (CheckSignature E cert (SignatureAlgorithm cert) (Raw (AuthData a) ++ h) sig) /\
      is_Some (CheckSignature E cert ECDSAWithSHA256 (Raw (AuthData a) ++ h) sig)).
Proof.
  intros Halg Hsig Hx5c Hparse.
  rewrite (verifyPacked_basic E a h alg sig) by (rewrite ?Hx5c; eauto).
  split; [exact (basic_signature_checks E a h alg sig der others cert Hx5c Hparse)|].
  destruct (CheckSignature E cert (SignatureAlgorithm cert) _ sig) as [e1|] eqn:H1;
    [destruct (CheckSignature E cert ECDSAWithSHA256 _ sig) as [e2|] eqn:H2|].
  - rewrite (basic_both_fail E a h alg sig der others cert Hx5c Hparse e1 e2 H1 H2).
    split; [eauto | reflexivity].
  - split; [|intros [_ [? [=]]]].
    intros Hk. exfalso.
    eapply (basic_accepted_kind E a h alg sig der others cert Hx5c Hparse); [|exact Hk].
    now right.
  - split; [|intros [[? [=]] _]].
    intros Hk. exfalso.
    eapply (basic_accepted_kind E a h alg sig der others cert Hx5c Hparse); [|exact Hk].
    now left.
Qed.

(** C3 (as amended). On the basic path a leaf certificate with the CA flag
    set always fails: with the invalid-certificate-profile error when the
    signature is accepted (by the declared algorithm or by the retry), with
    the invalid-signature error when it is not. *)
Theorem basic_ca_flag E a h alg sig der others cert :
  AttStmt a !! "alg" = Some (VInt64 alg) ->
  AttStmt a !! "sig" = Some (VBytes sig) ->
  AttStmt a !! "x5c" = Some (VArray (VBytes der :: others)) ->
  x509_ParseCertificate E der = inr cert ->
  IsCA cert = true ->
  (signature_accepted E cert (Raw (AuthData a) ++ h) sig ->
   result_kind (snd (verifyPacked E a h)) = Some invalid_certificate_profile) /\
  (~ signature_accepted E cert (Raw (AuthData a) ++ h) sig ->
   result_kind (snd (verifyPacked E a h)) = Some invalid_signature).
Proof.
  intros Halg Hsig Hx5c Hparse Hca.
  rewrite (verifyPacked_basic E a h alg sig) by (rewrite ?Hx5c; eauto).
  split.
  - intros Hacc. destruct (Z.eq_dec (Version cert) 3) as [Hv|Hv].
    + now rewrite (basic_is_ca E a h alg sig der others cert Hx5c Hparse Hacc Hv Hca).
    + now rewrite (basic_version E a h alg sig der others cert Hx5c Hparse Hacc Hv).
  - intros Hrej. unfold signature_accepted in Hrej.
    destruct (CheckSignature E cert (SignatureAlgorithm cert) _ sig) as [e1|] eqn:H1;
      [|tauto].
    destruct (CheckSignature E cert ECDSAWithSHA256 _ sig) as [e2|] eqn:H2; [|tauto].
    now rewrite (basic_both_fail E a h alg sig der others cert Hx5c Hparse e1 e2 H1 H2).
Qed.

(** C6 (as amended). On the basic path, when the signature is accepted, the
    certificate is version 3 and not a CA, no device-model extension is
    marked critical, and the value of the (last) device-model extension
    decodes as an OCTET STRING whose contents differ from the AAGUID of the
    authenticator data, verification fails with the aaguid-mismatch error. *)
Theorem basic_aaguid_mismatch E a h alg sig der others cert earlier ext decoded trailing :
  AttStmt a !! "alg" = Some (VInt64 alg) ->
  AttStmt a !! "sig" = Some (VBytes sig) ->
  AttStmt a !! "x5c" = Some (VArray (VBytes der :: others)) ->
  x509_ParseCertificate E der = inr cert ->
  signature_accepted E cert (Raw (AuthData a) ++ h) sig ->
  Version cert = 3 ->
  IsCA cert = false ->
  device_model_extensions (Extensions cert) = (earlier ++ [ext])%list ->
  Forall (fun x => Critical x = false) (earlier ++ [ext]) ->
  parseField_bytes (Value ext) = inr (decoded, trailing) ->
  decoded <> AAGUID (AttestedCredentialData (AuthData a)) ->
  snd (verifyPacked E a h) =
    Failure (WithDebugf (ErrInvalidAttestation E) "invalid AAGUID" []) /\
  result_kind (snd (verifyPacked E a h)) = Some aaguid_mismatch.
Proof.
  intros Halg Hsig Hx5c Hparse Hacc Hv Hca Hdm Hnc Hdec Hne.
  rewrite (verifyPacked_basic E a h alg sig) by (rewrite ?Hx5c; eauto).
  assert (Hscan : scan_extensions E (Extensions cert) [] = inr (Value ext)).
  { rewrite scan_extensions_inr by (rewrite Hdm; exact Hnc).
    now rewrite Hdm, last_snoc. }
  assert (Hval : Value ext <> []).
  { intros Hnil. rewrite Hnil in Hdec. discriminate. }
  rewrite (basic_decoded E a h alg sig der others cert Hx5c Hparse
             (Value ext) decoded trailing Hacc Hv Hca Hscan Hval Hdec).
  assert (Hb : bytes_Equal (AAGUID (AttestedCredentialData (AuthData a))) decoded = false)
    by (apply bytes_Equal_neq; congruence).
  rewrite Hb. split; reflexivity.
Qed.

(** C9 (the code at the failing input). On the basic path, when the
    signature is accepted, the certificate is version 3 and not a CA, and
    the (last) device-model extension is present, not critical, and has an
    empty value, verification succeeds: the AAGUID check is skipped. *)
Theorem basic_empty_device_model_accepted E a h alg sig der others cert earlier ext :
  AttStmt a !! "alg" = Some (VInt64 alg) ->
  AttStmt a !! "sig" = Some (VBytes sig) ->
  AttStmt a !! "x5c" = Some (VArray (VBytes der :: others)) ->
  x509_ParseCertificate E der = inr cert ->
  signature_accepted E cert (Raw (AuthData a) ++ h) sig ->
  Version cert = 3 ->
  IsCA cert = false ->
  device_model_extensions (Extensions cert) = (earlier ++ [ext])%list ->
  Forall (fun x => Critical x = false) (earlier ++ [ext]) ->
  Value ext = [] ->
  snd (verifyPacked E a h) = Success.
Proof.
  intros Halg Hsig Hx5c Hparse Hacc Hv Hca Hdm Hnc Hempty.
  rewrite (verifyPacked_basic E a h alg sig) by (rewrite ?Hx5c; eauto).
  apply (basic_empty_value E a h alg sig der others cert Hx5c Hparse Hacc Hv Hca).
  rewrite scan_extensions_inr by (rewrite Hdm; exact Hnc).
  now rewrite Hdm, last_snoc, Hempty.
Qed.

(** ** The self path *)

(** With an ECDSA key on P-256 and [alg = ES256], [verifySelf] hands [sig]
    and the slice [signature] (by value) to [asn1.Unmarshal]; the decode is
    refused whatever [sig] is, so neither the hash nor [ecdsa.Verify] is
    reached. *)
Lemma verifySelf_es256_p256 E a h sig v :
  COSEKey (AttestedCredentialData (AuthData a)) = KeyECDSA (Some v) ->
  Curve v = Some P256 ->
  verifySelf E a h ES256 sig =
    ([CallUnmarshal sig (SliceOfBigInt [None; None])],
     match unmarshal_non_pointer E with
     | ReturnsError =>
         Failure (WithCause
                    (WithDebugf (ErrInvalidAttestation E) "invalid ECDSA signature: %v"
                       [ArgError (Asn1Error (InvalidUnmarshalError "[]*big.Int"))])
                    (Asn1Error (InvalidUnmarshalError "[]*big.Int")))
     | Panics => Panic ReflectElemOfNonPointer
     end).
Proof.
  intros Hkey Hcurve. unfold verifySelf. rewrite Hkey, Hcurve.
  cbn [curve_is_not_P256 curve_eqb negb orb]. change (ES256 =? ES256) with true.
  cbn [negb orb]. rewrite asn1_Unmarshal_non_pointer.
  destruct (unmarshal_non_pointer E); reflexivity.
Qed.

(** C1 (the code at the failing input). For a self-attestation statement
    with [alg = -7], any [sig] (a valid DER signature or a zeroed one), no
    [x5c], no [ecdaaKeyId] and a P-256 credential key, [verifyPacked] never
    succeeds and never reports the invalid-signature error: the decode of
    [sig] is refused first. *)
Theorem self_attestation_never_verifies E a h sig v :
  AttStmt a !! "alg" = Some (VInt64 (-7)) ->
  AttStmt a !! "sig" = Some (VBytes sig) ->
  AttStmt a !! "x5c" = None ->
  AttStmt a !! "ecdaaKeyId" = None ->
  COSEKey (AttestedCredentialData (AuthData a)) = KeyECDSA (Some v) ->
  Curve v = Some P256 ->
  snd (verifyPacked E a h) <> Success /\
  result_kind (snd (verifyPacked E a h)) <> Some invalid_signature /\
  (unmarshal_non_pointer E = ReturnsError ->
   result_kind (snd (verifyPacked E a h)) = Some malformed_signature).
Proof.
  intros Halg Hsig Hx Hk Hkey Hcurve.
  rewrite (verifyPacked_self E a h (-7) sig) by assumption.
  change (-7) with ES256.
  rewrite (verifySelf_es256_p256 E a h sig v Hkey Hcurve).
  destruct (unmarshal_non_pointer E); cbn [snd];
    repeat split; try discriminate; reflexivity.
Qed.

(** C8 (the code at the failing input). For every [r] and [s], the DER
    signature built from them is not decoded by the self path: the call of
    [asn1.Unmarshal] is the only library call, it leaves the recipient
    without [r] and [s], and [ecdsa.Verify] is never called. *)
Theorem self_decode_refuses_der_signature E a h r s v :
  COSEKey (AttestedCredentialData (AuthData a)) = KeyECDSA (Some v) ->
  Curve v = Some P256 ->
  fst (verifySelf E a h ES256 (der_ecdsa_signature r s)) =
    [CallUnmarshal (der_ecdsa_signature r s) (SliceOfBigInt [None; None])] /\
  verify_calls (fst (verifySelf E a h ES256 (der_ecdsa_signature r s))) = [] /\
  snd (verifySelf E a h ES256 (der_ecdsa_signature r s)) <> Success /\
  match asn1_Unmarshal (unmarshal_non_pointer E) (der_ecdsa_signature r s)
          (SliceOfBigInt [None; None]) with
  | inl _ => True
  | inr u => is_Some (um_err u) /\ um_ints u = [None; None]
  end.
Proof.
  intros Hkey Hcurve.
  rewrite (verifySelf_es256_p256 E a h _ v Hkey Hcurve).
  rewrite asn1_Unmarshal_non_pointer.
  destruct (unmarshal_non_pointer E); cbn [fst snd verify_calls um_err um_ints];
    repeat split; try discriminate; eauto.
Qed.

(** ** Every failure is the one typed error *)

Ltac step_go := cbn [go_bind go_call go_run go_return go_pure app fst snd].

Ltac walk_body :=
  repeat (step_go;
    match goal with
    | |- context [x509_ParseCertificate ?E ?d] =>
        destruct (x509_ParseCertificate E d) eqn:?
    | |- context [CheckSignature ?E ?c ?al ?s ?g] =>
        destruct (CheckSignature E c al s g) eqn:?
    | |- context [Version ?c =? 3] => destruct (Version c =? 3)
    | |- context [IsCA ?c] => destruct (IsCA c)
    | |- context [scan_extensions ?E ?x ?acc] =>
        destruct (scan_extensions E x acc) eqn:?
    | |- context [0 <? Z.of_nat (length ?v)] => destruct (0 <? Z.of_nat (length v))
    | |- context [asn1_Unmarshal ?np ?v ?val] => destruct (asn1_Unmarshal np v val)
    | |- context [um_err ?u] => destruct (um_err u)
    | |- context [um_rest ?u] => destruct (um_rest u)
    | |- context [um_ints ?u] => destruct (um_ints u) as [|[?|] [|[?|] ?]]
    | |- context [bytes_Equal ?x ?y] => destruct (bytes_Equal x y)
    | |- context [ecdsa_Verify ?E ?k ?hh ?r ?s] => destruct (ecdsa_Verify E k hh r s)
    | |- context [negb (?x =? ES256) || ?y] => destruct (negb (x =? ES256) || y)
    | |- context [Curve ?v] => destruct (Curve v)
    | |- context [curve_Params_Name ?c] => destruct (curve_Params_Name c)
    end).






(** * The theorems at concrete inputs *)

Ltac evaluate := vm_compute; first [reflexivity | discriminate].

(** C5 at a statement without [alg]. *)
Lemma verifyPacked_ill_typed_fields_witness :
  fst (verifyPacked (Sample.self_env ReturnsError)
         Sample.no_alg_ecdaa_statement Sample.hash) = [] /\
  result_kind (snd (verifyPacked (Sample.self_env ReturnsError)
                      Sample.no_alg_ecdaa_statement Sample.hash))
    = Some missing_field_or_wrong_type.
Proof.
  apply (verifyPacked_ill_typed_fields (Sample.self_env ReturnsError)
           Sample.no_alg_ecdaa_statement Sample.hash).
  left. intros n. evaluate.
Defined.

(** C4 at a statement with [alg], [sig] and [ecdaaKeyId], without [x5c]. *)
Lemma verifyPacked_ecdaa_unsupported_witness :
  verifyPacked (Sample.self_env ReturnsError) Sample.ecdaa_statement Sample.hash =
    ([], Failure (WithDebugf Sample.protocol_error "unsupported packed format ECDAA" [])) /\
  result_kind (snd (verifyPacked (Sample.self_env ReturnsError)
                      Sample.ecdaa_statement Sample.hash)) = Some unsupported_format.
Proof.
  apply (verifyPacked_ecdaa_unsupported (Sample.self_env ReturnsError)
           Sample.ecdaa_statement Sample.hash ES256 Sample.some_sig).
  - evaluate.
  - evaluate.
  - evaluate.
  - exists (VBytes [B 7]). evaluate.
Defined.

(** C4 as stated fails: a statement with [ecdaaKeyId] but no [alg] fails
    with the missing-field error, and one that also has an [x5c] field is
    routed to the basic path, whose error is not unsupported-format. *)
Lemma ecdaaKeyId_not_always_unsupported :
  (is_Some (AttStmt Sample.no_alg_ecdaa_statement !! "ecdaaKeyId") /\
   snd (verifyPacked (Sample.self_env ReturnsError)
          Sample.no_alg_ecdaa_statement Sample.hash) =
     Failure (WithDebug Sample.protocol_error "missing alg for packed") /\
   result_kind (snd (verifyPacked (Sample.self_env ReturnsError)
                       Sample.no_alg_ecdaa_statement Sample.hash))
     <> Some unsupported_format) /\
  (is_Some (AttStmt Sample.ecdaa_and_x5c_statement !! "ecdaaKeyId") /\
   snd (verifyPacked (Sample.self_env ReturnsError)
          Sample.ecdaa_and_x5c_statement Sample.hash) =
     Failure (WithDebug Sample.protocol_error "invalid x5c for packed") /\
   result_kind (snd (verifyPacked (Sample.self_env ReturnsError)
                       Sample.ecdaa_and_x5c_statement Sample.hash))
     <> Some unsupported_format).
Proof.
  repeat split; try (exists (VBytes [B 7])); evaluate.
Qed.

(** C7 at a certificate that mis-declares its algorithm: two checks, the
    second one accepted. *)
Lemma basic_signature_retry_witness :
  signature_checks (fst (verifyPacked Sample.fallback_env
                           Sample.basic_statement Sample.hash)) =
    [(Sample.plain_cert, SHA256WithRSA,
      (Raw (AuthData Sample.basic_statement) ++ Sample.hash)%list, Sample.some_sig);
     (Sample.plain_cert, ECDSAWithSHA256,
      (Raw (AuthData Sample.basic_statement) ++ Sample.hash)%list, Sample.some_sig)] /\
  snd (verifyPacked Sample.fallback_env Sample.basic_statement Sample.hash) = Success.
Proof.
  pose proof (basic_signature_retry Sample.fallback_env Sample.basic_statement
                Sample.hash ES256 Sample.some_sig Sample.leaf_der [] Sample.plain_cert
                ltac:(evaluate) ltac:(evaluate) ltac:(evaluate) ltac:(evaluate))
    as [Hchecks _].
  split; [exact Hchecks | evaluate].
Defined.

(** C3 as stated fails: a CA certificate whose signature checks fail is
    rejected with the invalid-signature error, not with the
    invalid-certificate-profile one. *)
Lemma ca_flag_with_rejected_signature :
  AttStmt Sample.basic_statement !! "x5c" = Some (VArray [VBytes Sample.leaf_der]) /\
  x509_ParseCertificate Sample.ca_rejecting_env Sample.leaf_der = inr Sample.ca_cert /\
  IsCA Sample.ca_cert = true /\
  snd (verifyPacked Sample.ca_rejecting_env Sample.basic_statement Sample.hash) =
    Failure (WithDebugf Sample.protocol_error "invalid signature for packed: %v"
               [ArgError Sample.rejected]) /\
  result_kind (snd (verifyPacked Sample.ca_rejecting_env
                      Sample.basic_statement Sample.hash))
    <> Some invalid_certificate_profile.
Proof.
  repeat split; evaluate.
Qed.

(** C3 (as amended) at a CA certificate with an accepted signature. *)
Lemma basic_ca_flag_witness :
  result_kind (snd (verifyPacked Sample.ca_accepting_env
                      Sample.basic_statement Sample.hash))
    = Some invalid_certificate_profile.
Proof.
  apply (basic_ca_flag Sample.ca_accepting_env Sample.basic_statement Sample.hash
           ES256 Sample.some_sig Sample.leaf_der [] Sample.ca_cert).
  - evaluate.
  - evaluate.
  - evaluate.
  - evaluate.
  - evaluate.
  - left. evaluate.
Defined.

(** C6 as stated fails: with a valid signature and a device-model
    extension that decodes to another AAGUID, a CA certificate is rejected
    with the invalid-certificate-profile error and a critical extension with
    the invalid-extension error, not with aaguid-mismatch. *)
Lemma aaguid_mismatch_behind_profile_checks :
  (parseField_bytes (Value Sample.other_model) = inr (Sample.aaguid_one, []) /\
   Sample.aaguid_one <> AAGUID (AttestedCredentialData (AuthData Sample.basic_statement)) /\
   signature_accepted Sample.ca_other_model_env Sample.ca_other_model_cert
     (Raw (AuthData Sample.basic_statement) ++ Sample.hash) Sample.some_sig /\
   device_model_extensions (Extensions Sample.ca_other_model_cert) = [Sample.other_model] /\
   snd (verifyPacked Sample.ca_other_model_env Sample.basic_statement Sample.hash) =
     Failure (WithDebug Sample.protocol_error "CA is set for certificate") /\
   result_kind (snd (verifyPacked Sample.ca_other_model_env
                       Sample.basic_statement Sample.hash)) <> Some aaguid_mismatch) /\
  (signature_accepted Sample.critical_other_model_env Sample.critical_other_model_cert
     (Raw (AuthData Sample.basic_statement) ++ Sample.hash) Sample.some_sig /\
   device_model_extensions (Extensions Sample.critical_other_model_cert) =
     [Sample.device_model true (der_octet_string Sample.aaguid_one)] /\
   snd (verifyPacked Sample.critical_other_model_env Sample.basic_statement Sample.hash) =
     Failure (WithDebug Sample.protocol_error
                "extension id-fido-gen-ce-aaguid is present, but is marked as critical") /\
   result_kind (snd (verifyPacked Sample.critical_other_model_env
                       Sample.basic_statement Sample.hash)) <> Some aaguid_mismatch).
Proof.
  repeat split; try (left; evaluate); evaluate.
Qed.

(** C6 (as amended) at a version-3 leaf certificate whose device-model
    extension holds another AAGUID. *)
Lemma basic_aaguid_mismatch_witness :
  snd (verifyPacked Sample.other_model_env Sample.basic_statement Sample.hash) =
    Failure (WithDebugf Sample.protocol_error "invalid AAGUID" []) /\
  result_kind (snd (verifyPacked Sample.other_model_env
                      Sample.basic_statement Sample.hash)) = Some aaguid_mismatch.
Proof.
  apply (basic_aaguid_mismatch Sample.other_model_env Sample.basic_statement Sample.hash
           ES256 Sample.some_sig Sample.leaf_der [] Sample.other_model_cert
           [] Sample.other_model Sample.aaguid_one []).
  - evaluate.
  - evaluate.
  - evaluate.
  - evaluate.
  - left. evaluate.
  - evaluate.
  - evaluate.
  - evaluate.
  - repeat constructor.
  - evaluate.
  - evaluate.
Defined.

(** C9 at a leaf certificate whose device-model extension is empty: the
    statement is accepted. *)
Lemma basic_empty_device_model_accepted_witness :
  is_device_model (Sample.device_model false []) = true /\
  snd (verifyPacked Sample.empty_model_env Sample.basic_statement Sample.hash) = Success.
Proof.
  split; [evaluate|].
  apply (basic_empty_device_model_accepted Sample.empty_model_env Sample.basic_statement
           Sample.hash ES256 Sample.some_sig Sample.leaf_der [] Sample.empty_model_cert
           [] (Sample.device_model false [])).
  - evaluate.
  - evaluate.
  - evaluate.
  - evaluate.
  - left. evaluate.
  - evaluate.
  - evaluate.
  - evaluate.
  - repeat constructor.
  - evaluate.
Defined.

(** C2 at the statement [{alg: -7, sig: ..., x5c: []}]. *)
Example empty_x5c_statement_panics :
  verifyPacked (Sample.self_env ReturnsError) Sample.empty_x5c_statement Sample.hash
  = ([], Panic (IndexOutOfRange 0 0)).
Proof. evaluate. Qed.

(** C1 at the spec's scenario: a DER signature, and the same statement with
    the signature zeroed, both end in the decode error. *)
Lemma self_attestation_never_verifies_witness :
  snd (verifyPacked (Sample.self_env ReturnsError)
         (Sample.self_statement Sample.some_sig) Sample.hash) <> Success /\
  result_kind (snd (verifyPacked (Sample.self_env ReturnsError)
                      (Sample.self_statement Sample.some_sig) Sample.hash))
    <> Some invalid_signature /\
  (unmarshal_non_pointer (Sample.self_env ReturnsError) = ReturnsError ->
   result_kind (snd (verifyPacked (Sample.self_env ReturnsError)
                       (Sample.self_statement Sample.some_sig) Sample.hash))
     = Some malformed_signature).
Proof.
  apply (self_attestation_never_verifies (Sample.self_env ReturnsError)
           (Sample.self_statement Sample.some_sig) Sample.hash Sample.some_sig
           Sample.p256_key).
  - evaluate.
  - evaluate.
  - evaluate.
  - evaluate.
  - evaluate.
  - evaluate.
Defined.

Example zeroed_signature_is_a_decode_error :
  result_kind (snd (verifyPacked (Sample.self_env ReturnsError)
                      (Sample.self_statement (repeat (B 0) 8)) Sample.hash))
    = Some malformed_signature.
Proof. evaluate. Qed.

(** C8 at [r = 1], [s = 1]. *)
Lemma self_decode_refuses_der_signature_witness :
  fst (verifySelf (Sample.self_env ReturnsError)
         (Sample.self_statement Sample.some_sig) Sample.hash ES256
         (der_ecdsa_signature 1 1)) =
    [CallUnmarshal (der_ecdsa_signature 1 1) (SliceOfBigInt [None; None])] /\
  verify_calls (fst (verifySelf (Sample.self_env ReturnsError)
                       (Sample.self_statement Sample.some_sig) Sample.hash ES256
                       (der_ecdsa_signature 1 1))) = [] /\
  snd (verifySelf (Sample.self_env ReturnsError)
         (Sample.self_statement Sample.some_sig) Sample.hash ES256
         (der_ecdsa_signature 1 1)) <> Success /\
  match asn1_Unmarshal (unmarshal_non_pointer (Sample.self_env ReturnsError))
          (der_ecdsa_signature 1 1) (SliceOfBigInt [None; None]) with
  | inl _ => True
  | inr u => is_Some (um_err u) /\ um_ints u = [None; None]
  end.
Proof.
  apply (self_decode_refuses_der_signature (Sample.self_env ReturnsError)
           (Sample.self_statement Sample.some_sig) Sample.hash 1 1 Sample.p256_key).
  - evaluate.
  - evaluate.
Defined.



(** * Further properties of the verifier *)

(** ** What the verifier reads

    [verifyBasic] reads the statement only at [x5c] and the authenticator
    data only through the signed payload and the AAGUID; [verifySelf] reads
    the credential key and the signed payload. *)

Lemma verifyBasic_reads E a a' h h' alg alg' sig :
  AttStmt a !! "x5c" = AttStmt a' !! "x5c" ->
  (Raw (AuthData a) ++ h)%list = (Raw (AuthData a') ++ h')%list ->
  AAGUID (AttestedCredentialData (AuthData a)) =
    AAGUID (AttestedCredentialData (AuthData a')) ->
  verifyBasic E a h alg sig = verifyBasic E a' h' alg' sig.
Proof.
  intros Hx Hs Hg. unfold verifyBasic. now rewrite Hx, Hs, Hg.
Qed.

Lemma verifySelf_reads E a a' h h' alg sig :
  COSEKey (AttestedCredentialData (AuthData a)) =
    COSEKey (AttestedCredentialData (AuthData a')) ->
  (Raw (AuthData a) ++ h)%list = (Raw (AuthData a') ++ h')%list ->
  verifySelf E a h alg sig = verifySelf E a' h' alg sig.
Proof.
  intros Hk Hs. unfold verifySelf. now rewrite Hk, Hs.
Qed.

Lemma verifyPacked_reads E a a' h h' :
  AttStmt a !! "alg" = AttStmt a' !! "alg" ->
  AttStmt a !! "sig" = AttStmt a' !! "sig" ->
  AttStmt a !! "x5c" = AttStmt a' !! "x5c" ->
  AttStmt a !! "ecdaaKeyId" = AttStmt a' !! "ecdaaKeyId" ->
  AttestedCredentialData (AuthData a) = AttestedCredentialData (AuthData a') ->
  (Raw (AuthData a) ++ h)%list = (Raw (AuthData a') ++ h')%list ->
  verifyPacked E a h = verifyPacked E a' h'.
Proof.
  intros Halg Hsig Hx Hk Hcred Hs. unfold verifyPacked.
  rewrite Halg, Hsig, Hx, Hk.
  destruct (AttStmt a' !! "alg") as [[| alg | | |]|]; try reflexivity.
  destruct (AttStmt a' !! "sig") as [[| | sig | |]|]; try reflexivity.
  destruct (bool_decide _).
  - apply verifyBasic_reads; [assumption | assumption | now rewrite Hcred].
  - destruct (bool_decide _); [reflexivity|].
    apply verifySelf_reads; [now rewrite Hcred | assumption].
Qed.

(** X1. Statement fields other than [alg], [sig], [x5c] and [ecdaaKeyId]
    are ignored: adding or overwriting any other key leaves the trace and
    the result of [verifyPacked] unchanged. *)
Theorem verifyPacked_ignores_other_fields E auth stmt key value h :
  key <> "alg" -> key <> "sig" -> key <> "x5c" -> key <> "ecdaaKeyId" ->
  verifyPacked E {| AuthData := auth; AttStmt := <[key := value]> stmt |} h =
  verifyPacked E {| AuthData := auth; AttStmt := stmt |} h.
Proof.
  intros Halg Hsig Hx Hk.
  apply verifyPacked_reads; cbn [AttStmt AuthData];
    rewrite ?lookup_insert_ne by congruence; reflexivity.
Qed.

(** X2. The certificate path has priority: in a statement with an [int64]
    [alg], a byte-string [sig] and an [x5c] field, the presence, absence or
    value of [ecdaaKeyId] changes nothing, and the result is never the
    unsupported-format error. *)
Theorem verifyPacked_x5c_before_ecdaaKeyId E auth stmt alg sig keyid h :
  stmt !! "alg" = Some (VInt64 alg) ->
  stmt !! "sig" = Some (VBytes sig) ->
  is_Some (stmt !! "x5c") ->
  (verifyPacked E {| AuthData := auth; AttStmt := <["ecdaaKeyId" := keyid]> stmt |} h =
   verifyPacked E {| AuthData := auth; AttStmt := delete "ecdaaKeyId" stmt |} h) /\
  result_kind (snd (verifyPacked E
      {| AuthData := auth; AttStmt := <["ecdaaKeyId" := keyid]> stmt |} h))
    <> Some unsupported_format.
Proof.
  intros Halg Hsig Hx.
  rewrite (verifyPacked_basic E _ h alg sig), (verifyPacked_basic E _ h alg sig);
    cbn [AttStmt];
    rewrite ?lookup_insert_ne, ?lookup_delete_ne by discriminate; try assumption.
  split.
  - apply verifyBasic_reads; cbn [AttStmt AuthData];
      [now rewrite lookup_insert_ne, lookup_delete_ne by discriminate | reflexivity..].
  - unfold verifyBasic. cbn [AttStmt AuthData].
    rewrite lookup_insert_ne by discriminate.
    destruct (stmt !! "x5c") as [[| | |[|[| |der| |] others]|]|];
      try (step_go; discriminate).
    walk_body;
      try match goal with
          | H : scan_extensions _ _ _ = inl _ |- _ =>
              apply scan_extensions_inl in H; subst
          end;
      simpl; discriminate.
Qed.

(** X3. On the certificate path the value of [alg] is not used: two
    statements that differ only in the [int64] stored under [alg] have the
    same trace and the same result. *)
Theorem verifyPacked_basic_ignores_alg E auth stmt alg alg' sig h :
  stmt !! "sig" = Some (VBytes sig) ->
  is_Some (stmt !! "x5c") ->
  verifyPacked E {| AuthData := auth; AttStmt := <["alg" := VInt64 alg]> stmt |} h =
  verifyPacked E {| AuthData := auth; AttStmt := <["alg" := VInt64 alg']> stmt |} h.
Proof.
  intros Hsig Hx.
  rewrite (verifyPacked_basic E _ h alg sig), (verifyPacked_basic E _ h alg' sig);
    cbn [AttStmt];
    rewrite ?lookup_insert_eq, ?lookup_insert_ne by discriminate; try easy.
  apply verifyBasic_reads; cbn [AttStmt AuthData];
    [now rewrite !lookup_insert_ne by discriminate | reflexivity..].
Qed.

(** X4. The authenticator data and the client-data hash enter only as the
    concatenation [Raw ++ clientDataHash]: moving bytes from the end of
    [Raw] to the front of the hash changes neither trace nor result. *)
Theorem verifyPacked_payload_is_concatenation E raw moved h cred stmt :
  verifyPacked E {| AuthData := {| Raw := (raw ++ moved)%list;
                                   AttestedCredentialData := cred |};
                    AttStmt := stmt |} h =
  verifyPacked E {| AuthData := {| Raw := raw; AttestedCredentialData := cred |};
                    AttStmt := stmt |} (moved ++ h)%list.
Proof.
  apply verifyPacked_reads; cbn [AttStmt AuthData Raw AttestedCredentialData];
    try reflexivity.
  now rewrite <- app_assoc.
Qed.

(** ** The certificate path, stage by stage *)

Lemma critical_or_not (exts : list pkix_Extension) :
  Forall (fun ext => Critical ext = false) exts \/
  Exists (fun ext => Critical ext = true) exts.
Proof.
  induction exts as [|ext exts [IH|IH]].
  - left. constructor.
  - destruct (Critical ext) eqn:Hc.
    + right. now constructor.
    + left. now constructor.
  - right. now constructor 2.
Qed.

(** X5. An [x5c] field that is not a sequence, or whose element 0 is not a
    byte string, is rejected with "invalid x5c for packed" before any
    library call. *)
Theorem verifyPacked_misshapen_x5c E a h alg sig v :
  AttStmt a !! "alg" = Some (VInt64 alg) ->
  AttStmt a !! "sig" = Some (VBytes sig) ->
  AttStmt a !! "x5c" = Some v ->
  (forall l, v <> VArray l) \/
  (exists first others, v = VArray (first :: others) /\ forall b, first <> VBytes b) ->
  verifyPacked E a h =
    ([], Failure (WithDebug (ErrInvalidAttestation E) "invalid x5c for packed")).
Proof.
  intros Halg Hsig Hx Hshape.
  rewrite (verifyPacked_basic E a h alg sig) by (rewrite ?Hx; eauto).
  unfold verifyBasic. rewrite Hx.
  destruct Hshape as [Hno | (first & others & -> & Hfirst)].
  - destruct v as [| | | l |]; try reflexivity. now destruct (Hno l).
  - destruct first as [| | b | |]; try reflexivity. now destruct (Hfirst b).
Qed.

(** X6. Only element 0 of [x5c] is used: the rest of the presented chain
    has no influence on the trace or on the result. *)
Theorem verifyPacked_uses_leaf_only E auth stmt alg sig leaf others h :
  stmt !! "alg" = Some (VInt64 alg) ->
  stmt !! "sig" = Some (VBytes sig) ->
  verifyPacked E {| AuthData := auth;
                    AttStmt := <["x5c" := VArray (leaf :: others)]> stmt |} h =
  verifyPacked E {| AuthData := auth;
                    AttStmt := <["x5c" := VArray [leaf]]> stmt |} h.
Proof.
  intros Halg Hsig.
  rewrite (verifyPacked_basic E _ h alg sig), (verifyPacked_basic E _ h alg sig);
    cbn [AttStmt];
    rewrite ?lookup_insert_eq, ?lookup_insert_ne by discriminate; eauto.
  unfold verifyBasic. cbn [AttStmt AuthData]. rewrite !lookup_insert_eq.
  now destruct leaf.
Qed.

Section CertificatePath.
Context (E : GoEnv) (a : Attestation) (h : bytes) (alg : Z) (sig der : bytes).
Context (others : list Any) (cert : x509_Certificate).
Hypothesis Halg : AttStmt a !! "alg" = Some (VInt64 alg).
Hypothesis Hsig : AttStmt a !! "sig" = Some (VBytes sig).
Hypothesis Hx5c : AttStmt a !! "x5c" = Some (VArray (VBytes der :: others)).

Local Abbreviation signed := (Raw (AuthData a) ++ h)%list.
Local Abbreviation EIA := (ErrInvalidAttestation E).
Local Abbreviation aaguid := (AAGUID (AttestedCredentialData (AuthData a))).

Lemma to_basic : verifyPacked E a h = verifyBasic E a h alg sig.
Proof. apply verifyPacked_basic; rewrite ?Hx5c; eauto. Qed.

(** X7. A leaf that does not parse as a certificate is rejected with the
    parser's error attached; [x509.ParseCertificate] is the only library
    call made. *)
Theorem verifyPacked_unparsable_leaf err :
  x509_ParseCertificate E der = inl err ->
  verifyPacked E a h =
    ([CallParseCertificate der],
     Failure (WithDebugf EIA "invalid x5c for packed: %v" [ArgError err])).
Proof.
  intros Hparse. rewrite to_basic. unfold verifyBasic. rewrite Hx5c.
  step_go. now rewrite Hparse.
Qed.

Hypothesis Hparse : x509_ParseCertificate E der = inr cert.

Local Abbreviation stage L := (L E a h alg sig der others cert Hx5c Hparse).

(** X8. With an accepted signature, a certificate whose version is not 3
    is rejected with "invalid version for certificate", whatever its CA
    flag and its extensions are. *)
Theorem verifyPacked_wrong_version :
  signature_accepted E cert signed sig ->
  Version cert <> 3 ->
  snd (verifyPacked E a h) =
    Failure (WithDebug EIA "invalid version for certificate").
Proof. intros Hacc Hv. rewrite to_basic. now apply (stage basic_version). Qed.

(** X9. With an accepted signature on a version-3 non-CA certificate, a
    device-model extension marked critical is rejected with the
    critical-extension error wherever it stands among the extensions and
    whatever it contains; no extension value is decoded. *)
Theorem verifyPacked_critical_device_model :
  signature_accepted E cert signed sig ->
  Version cert = 3 ->
  IsCA cert = false ->
  Exists (fun ext => Critical ext = true) (device_model_extensions (Extensions cert)) ->
  snd (verifyPacked E a h) = Failure (critical_extension_error E) /\
  unmarshal_calls (fst (verifyPacked E a h)) = [].
Proof.
  intros Hacc Hv Hca Hcrit. rewrite to_basic.
  pose proof (scan_extensions_critical E _ [] Hcrit) as Hscan.
  split; [now apply (stage basic_scan_returns)|].
  unfold verifyBasic. rewrite Hx5c. step_go. rewrite Hparse. step_go.
  rewrite Hv, Hca, Hscan.
  destruct (CheckSignature E cert (SignatureAlgorithm cert) signed sig); step_go;
    [destruct (CheckSignature E cert ECDSAWithSHA256 signed sig); step_go|];
    reflexivity.
Qed.

(** X10. With an accepted signature on a version-3 non-CA certificate
    without critical device-model extension, a non-empty value of the last
    device-model extension that does not decode as an OCTET STRING is
    rejected with "invalid AAGUID: %v" carrying the decoder's error. *)
Theorem verifyPacked_undecodable_device_model earlier ext e :
  signature_accepted E cert signed sig ->
  Version cert = 3 ->
  IsCA cert = false ->
  device_model_extensions (Extensions cert) = (earlier ++ [ext])%list ->
  Forall (fun x => Critical x = false) (earlier ++ [ext]) ->
  Value ext <> [] ->
  parseField_bytes (Value ext) = inl e ->
  snd (verifyPacked E a h) =
    Failure (WithDebugf EIA "invalid AAGUID: %v" [ArgError (Asn1Error e)]) /\
  result_kind (snd (verifyPacked E a h)) = Some invalid_aaguid_encoding.
Proof.
  intros Hacc Hv Hca Hdm Hnc Hne Hdec. rewrite to_basic.
  assert (Hscan : scan_extensions E (Extensions cert) [] = inr (Value ext)).
  { rewrite scan_extensions_inr by (rewrite Hdm; exact Hnc).
    now rewrite Hdm, last_snoc. }
  rewrite (stage basic_decode_error (Value ext) e Hacc Hv Hca Hscan Hne Hdec).
  split; reflexivity.
Qed.

(** X11. The acceptance criterion of the certificate path.  A statement
    whose leaf parses is accepted exactly when the signature verifies under
    the declared algorithm or under ECDSA-with-SHA-256, the certificate is
    version 3 and not a CA, no device-model extension is critical, and the
    last device-model extension, if there is one, has an empty value or an
    OCTET STRING holding the AAGUID of the authenticator data (bytes after
    the OCTET STRING are not looked at). *)
Theorem verifyPacked_accepts_iff :
  snd (verifyPacked E a h) = Success <->
  signature_accepted E cert signed sig /\
  Version cert = 3 /\
  IsCA cert = false /\
  Forall (fun ext => Critical ext = false) (device_model_extensions (Extensions cert)) /\
  match last (device_model_extensions (Extensions cert)) with
  | None => True
  | Some ext =>
      Value ext = [] \/
      exists trailing, parseField_bytes (Value ext) = inr (aaguid, trailing)
  end.
Proof.
  rewrite to_basic. split.
  - intros Hs.
    assert (Hacc : signature_accepted E cert signed sig).
    { unfold signature_accepted.
      destruct (CheckSignature E cert (SignatureAlgorithm cert) signed sig)
        as [e1|] eqn:H1; [|now left].
      destruct (CheckSignature E cert ECDSAWithSHA256 signed sig)
        as [e2|] eqn:H2; [|now right].
      rewrite (stage basic_both_fail e1 e2 H1 H2) in Hs. discriminate. }
    destruct (Z.eq_dec (Version cert) 3) as [Hv|Hv];
      [|rewrite (stage basic_version Hacc Hv) in Hs; discriminate].
    destruct (IsCA cert) eqn:Hca;
      [rewrite (stage basic_is_ca Hacc Hv Hca) in Hs; discriminate|].
    destruct (critical_or_not (device_model_extensions (Extensions cert)))
      as [Hnc|Hcrit].
    2:{ rewrite (stage basic_scan_returns _ Hacc Hv Hca
                   (scan_extensions_critical E _ [] Hcrit)) in Hs.
        discriminate. }
    repeat split; try assumption.
    pose proof (scan_extensions_inr E (Extensions cert) [] Hnc) as Hscan.
    destruct (last (device_model_extensions (Extensions cert))) as [ext|];
      [|exact I].
    destruct (Value ext) as [|b v] eqn:Hval; [now left|right].
    assert (Hne : b :: v <> []) by discriminate.
    destruct (parseField_bytes (b :: v)) as [e|[decoded trailing]] eqn:Hdec.
    + rewrite (stage basic_decode_error _ e Hacc Hv Hca Hscan Hne Hdec) in Hs.
      discriminate.
    + rewrite (stage basic_decoded _ decoded trailing Hacc Hv Hca Hscan Hne Hdec) in Hs.
      destruct (bytes_Equal aaguid decoded) eqn:Heq; [|discriminate].
      apply bytes_Equal_eq in Heq. subst decoded. now exists trailing.
  - intros (Hacc & Hv & Hca & Hnc & Hlast).
    pose proof (scan_extensions_inr E (Extensions cert) [] Hnc) as Hscan.
    destruct (last (device_model_extensions (Extensions cert))) as [ext|].
    + destruct Hlast as [Hempty | [trailing Hdec]].
      * rewrite Hempty in Hscan. now apply (stage basic_empty_value).
      * assert (Hne : Value ext <> []).
        { intros Hnil. rewrite Hnil in Hdec. discriminate. }
        rewrite (stage basic_decoded _ aaguid trailing Hacc Hv Hca Hscan Hne Hdec).
        now rewrite (proj2 (bytes_Equal_eq aaguid aaguid) eq_refl).
    + now apply (stage basic_empty_value).
Qed.

(** X12. Errors about the certificate are only reported for a verified
    signature: when the result is an invalid-certificate-profile,
    invalid-extension, invalid-aaguid-encoding or aaguid-mismatch error,
    the signature was accepted under the declared algorithm or under the
    retry. *)
Theorem verifyPacked_certificate_errors_follow_signature k :
  result_kind (snd (verifyPacked E a h)) = Some k ->
  k = invalid_certificate_profile \/ k = invalid_extension \/
  k = invalid_aaguid_encoding \/ k = aaguid_mismatch ->
  signature_accepted E cert signed sig.
Proof.
  rewrite to_basic. intros Hk Hin. unfold signature_accepted.
  destruct (CheckSignature E cert (SignatureAlgorithm cert) signed sig)
    as [e1|] eqn:H1; [|now left].
  destruct (CheckSignature E cert ECDSAWithSHA256 signed sig)
    as [e2|] eqn:H2; [|now right].
  rewrite (stage basic_both_fail e1 e2 H1 H2) in Hk.
  cbn in Hk. injection Hk as <-.
  destruct Hin as [|[|[|]]]; discriminate.
Qed.

End CertificatePath.

(** ** Panics and the self path *)

(** Decoding into a pointer to a byte slice never panics. *)
Lemma asn1_Unmarshal_bytes_returns np b :
  exists u, asn1_Unmarshal np b PtrToBytes = inr u.
Proof.
  unfold asn1_Unmarshal. destruct (parseField_bytes b) as [e|[v rest]]; eauto.
Qed.

(** Past the indexing of [x5c], the certificate path returns. *)
Lemma verifyBasic_returns E a h alg sig first others :
  AttStmt a !! "x5c" = Some (VArray (first :: others)) ->
  forall p, snd (verifyBasic E a h alg sig) <> Panic p.
Proof.
  intros Hx p. unfold verifyBasic. rewrite Hx.
  destruct first as [| | der | |]; try (step_go; discriminate).
  repeat (step_go;
    match goal with
    | |- context [x509_ParseCertificate ?E ?d] =>
        destruct (x509_ParseCertificate E d)
    | |- context [CheckSignature ?E ?c ?al ?s ?g] =>
        destruct (CheckSignature E c al s g)
    | |- context [Version ?c =? 3] => destruct (Version c =? 3)
    | |- context [IsCA ?c] => destruct (IsCA c)
    | |- context [scan_extensions ?E ?x ?acc] =>
        destruct (scan_extensions E x acc) eqn:?
    | |- context [0 <? Z.of_nat (length ?v)] => destruct (0 <? Z.of_nat (length v))
    | |- context [asn1_Unmarshal ?np ?v PtrToBytes] =>
        destruct (asn1_Unmarshal_bytes_returns np v) as [? ->]
    | |- context [um_err ?u] => destruct (um_err u)
    | |- context [bytes_Equal ?x ?y] => destruct (bytes_Equal x y)
    end);
  try match goal with
      | H : scan_extensions _ _ _ = inl _ |- _ =>
          apply scan_extensions_inl in H; subst
      end;
  simpl; discriminate.
Qed.

(** The self path: at most the one call of [asn1.Unmarshal], and never a
    success. *)
Lemma verifySelf_outcome E a h alg sig :
  (fst (verifySelf E a h alg sig) = [] \/
   fst (verifySelf E a h alg sig) = [CallUnmarshal sig (SliceOfBigInt [None; None])]) /\
  snd (verifySelf E a h alg sig) <> Success.
Proof.
  unfold verifySelf.
  destruct (COSEKey (AttestedCredentialData (AuthData a))) as [|[v|]|];
    try (step_go; split; [now left | discriminate]).
  destruct (negb (alg =? ES256) || curve_is_not_P256 (Curve v)).
  - destruct (Curve v) as [c|]; [destruct (curve_Params_Name c)|]; step_go;
      (split; [now left | discriminate]).
  - rewrite asn1_Unmarshal_non_pointer.
    destruct (unmarshal_non_pointer E); step_go; (split; [now right | discriminate]).
Qed.

(** X13. A credential key that is not a [*ecdsa.PublicKey] makes the self
    path fail with the unsupported-public-key-type error, before any
    library call. *)
Theorem verifyPacked_self_unsupported_key_type E a h alg sig :
  AttStmt a !! "alg" = Some (VInt64 alg) ->
  AttStmt a !! "sig" = Some (VBytes sig) ->
  AttStmt a !! "x5c" = None ->
  AttStmt a !! "ecdaaKeyId" = None ->
  (forall v, COSEKey (AttestedCredentialData (AuthData a)) <> KeyECDSA v) ->
  verifyPacked E a h =
    ([], Failure (WithDebugf (ErrInvalidAttestation E)
                    "unsupported packed self attestation public key type %T"
                    [ArgTypeOfKey (COSEKey (AttestedCredentialData (AuthData a)))])) /\
  result_kind (snd (verifyPacked E a h)) = Some unsupported_key_or_algorithm.
Proof.
  intros Halg Hsig Hx Hk Hkey.
  rewrite (verifyPacked_self E a h alg sig) by assumption.
  unfold verifySelf.
  destruct (COSEKey (AttestedCredentialData (AuthData a))) as [|v|ty];
    [split; reflexivity | now destruct (Hkey v) | split; reflexivity].
Qed.


(** X15. Whatever the statement, [verifyPacked] never calls
    [sha256.Sum256] or [ecdsa.Verify]: the only place that would, the end
    of the self path, is never reached. *)
Theorem verifyPacked_never_hashes_or_verifies E a h :
  forallb (fun c => negb (is_hash_or_verify c)) (fst (verifyPacked E a h)) = true.
Proof.
  unfold verifyPacked.
  destruct (AttStmt a !! "alg") as [[| alg | | |]|]; try reflexivity.
  destruct (AttStmt a !! "sig") as [[| | sig | |]|]; try reflexivity.
  destruct (bool_decide _).
  - unfold verifyBasic.
    destruct (AttStmt a !! "x5c") as [[| | |[|[| |der| |] others]|]|];
      try reflexivity.
    walk_body; reflexivity.
  - destruct (bool_decide _); [reflexivity|].
    destruct (verifySelf_outcome E a h alg sig) as [[-> | ->] _]; reflexivity.
Qed.

(** X16. What a success tells the caller: [verifyPacked] returns [nil] only
    for a statement with an [int64] [alg], a byte-string [sig] and an [x5c]
    whose element 0 parses as a version-3, non-CA certificate under which
    [sig] verifies over [Raw ++ clientDataHash] (by the declared algorithm or
    by ECDSA-with-SHA-256).  No statement without [x5c] is ever accepted. *)
Theorem verifyPacked_success_needs_certificate E a h :
  snd (verifyPacked E a h) = Success ->
  exists alg sig der others cert,
    AttStmt a !! "alg" = Some (VInt64 alg) /\
    AttStmt a !! "sig" = Some (VBytes sig) /\
    AttStmt a !! "x5c" = Some (VArray (VBytes der :: others)) /\
    x509_ParseCertificate E der = inr cert /\
    signature_accepted E cert (Raw (AuthData a) ++ h) sig /\
    Version cert = 3 /\
    IsCA cert = false.
Proof.
  unfold verifyPacked.
  destruct (AttStmt a !! "alg") as [[| alg | | |]|] eqn:Halg; try discriminate.
  destruct (AttStmt a !! "sig") as [[| | sig | |]|] eqn:Hsig; try discriminate.
  destruct (bool_decide _).
  2:{ destruct (bool_decide _); [discriminate|].
      intros Hs. now destruct (verifySelf_outcome E a h alg sig) as [_ []]. }
  destruct (AttStmt a !! "x5c") as [[| | |[|[| |der| |] others]|]|] eqn:Hx;
    try (unfold verifyBasic; rewrite Hx; discriminate).
  destruct (x509_ParseCertificate E der) as [err|cert] eqn:Hparse.
  { unfold verifyBasic. rewrite Hx. step_go. rewrite Hparse. discriminate. }
  intros Hs. exists alg, sig, der, others, cert.
  assert (Hacc : signature_accepted E cert (Raw (AuthData a) ++ h) sig).
  { unfold signature_accepted.
    destruct (CheckSignature E cert (SignatureAlgorithm cert) _ sig) as [e1|] eqn:H1;
      [|now left].
    destruct (CheckSignature E cert ECDSAWithSHA256 _ sig) as [e2|] eqn:H2;
      [|now right].
    rewrite (basic_both_fail E a h alg sig der others cert Hx Hparse e1 e2 H1 H2) in Hs.
    discriminate. }
  destruct (Z.eq_dec (Version cert) 3) as [Hv|Hv].
  2:{ rewrite (basic_version E a h alg sig der others cert Hx Hparse Hacc Hv) in Hs.
      discriminate. }
  destruct (IsCA cert) eqn:Hca.
  { rewrite (basic_is_ca E a h alg sig der others cert Hx Hparse Hacc Hv Hca) in Hs.
    discriminate. }
  repeat split; assumption.
Qed.

(** X17. The panics of the verifier's own code (the library calls being
    taken to return).  A call of [verifyPacked] panics only on an empty
    [x5c] sequence (index out of range), or on the self path with an ECDSA
    key that is a nil pointer, has a nil curve, or has a curve whose
    [Params()] is nil (nil dereference), or, in a Go release whose
    [asn1.Unmarshal] panics on a non-pointer recipient, at the signature
    decode. *)
Theorem verifyPacked_panics_only E a h p :
  snd (verifyPacked E a h) = Panic p ->
  (AttStmt a !! "x5c" = Some (VArray []) /\ p = IndexOutOfRange 0 0) \/
  (AttStmt a !! "x5c" = None /\
   exists key, COSEKey (AttestedCredentialData (AuthData a)) = KeyECDSA key /\
     ((p = NilDereference /\
       (key = None \/
        exists v, key = Some v /\
          (Curve v = None \/
           exists c, Curve v = Some c /\ curve_Params_Name c = None))) \/
      (p = ReflectElemOfNonPointer /\ unmarshal_non_pointer E = Panics))).
Proof.
  unfold verifyPacked.
  destruct (AttStmt a !! "alg") as [[| alg | | |]|]; try discriminate.
  destruct (AttStmt a !! "sig") as [[| | sig | |]|]; try discriminate.
  destruct (AttStmt a !! "x5c") as [x|] eqn:Hx.
  - rewrite bool_decide_eq_true_2 by eauto. intros Hp. left.
    destruct x as [| | | [|first others] |];
      try (unfold verifyBasic in Hp; rewrite Hx in Hp; discriminate).
    + unfold verifyBasic in Hp. rewrite Hx in Hp. injection Hp as <-. now split.
    + now destruct (verifyBasic_returns E a h alg sig first others Hx p).
  - rewrite bool_decide_eq_false_2 by (intros [? ?]; discriminate).
    destruct (bool_decide _); [discriminate|]. intros Hp. right. split; [reflexivity|].
    revert Hp. unfold verifySelf.
    destruct (COSEKey (AttestedCredentialData (AuthData a))) as [|[v|]|];
      try discriminate.
    + exists (Some v). split; [reflexivity|].
      revert Hp.
      destruct (negb (alg =? ES256) || curve_is_not_P256 (Curve v)).
      * destruct (Curve v) as [c|] eqn:Hc.
        -- destruct (curve_Params_Name c) eqn:Hn; [discriminate|].
           intros [= <-]. left. split; [reflexivity|]. right. exists v.
           split; [reflexivity|]. right. now exists c.
        -- intros [= <-]. left. split; [reflexivity|]. right. exists v.
           split; [reflexivity|]. now left.
      * rewrite asn1_Unmarshal_non_pointer.
        destruct (unmarshal_non_pointer E); [discriminate|].
        intros [= <-]. now right.
    + intros [= <-]. exists None. split; [reflexivity|]. left. split; [reflexivity|now left].
Qed.

(** X18. Round trip through the extension value.  With an accepted
    signature on a version-3 non-CA certificate without critical
    device-model extension, a last device-model extension whose value is
    the DER OCTET STRING of the authenticator data's AAGUID, followed by any
    bytes, is accepted. *)
Theorem verifyPacked_accepts_encoded_aaguid
    E a h alg sig der others cert earlier ext trailing :
  AttStmt a !! "alg" = Some (VInt64 alg) ->
  AttStmt a !! "sig" = Some (VBytes sig) ->
  AttStmt a !! "x5c" = Some (VArray (VBytes der :: others)) ->
  x509_ParseCertificate E der = inr cert ->
  signature_accepted E cert (Raw (AuthData a) ++ h) sig ->
  Version cert = 3 ->
  IsCA cert = false ->
  device_model_extensions (Extensions cert) = (earlier ++ [ext])%list ->
  Forall (fun x => Critical x = false) (earlier ++ [ext]) ->
  (length (AAGUID (AttestedCredentialData (AuthData a))) < 128)%nat ->
  Value ext =
    (der_octet_string (AAGUID (AttestedCredentialData (AuthData a))) ++ trailing)%list ->
  snd (verifyPacked E a h) = Success.
Proof.
  intros Halg Hsig Hx5c Hparse Hacc Hv Hca Hdm Hnc Hlen Hval.
  rewrite (verifyPacked_basic E a h alg sig) by (rewrite ?Hx5c; eauto).
  assert (Hscan : scan_extensions E (Extensions cert) [] = inr (Value ext)).
  { rewrite scan_extensions_inr by (rewrite Hdm; exact Hnc).
    now rewrite Hdm, last_snoc. }
  assert (Hdec : parseField_bytes (Value ext) =
                 inr (AAGUID (AttestedCredentialData (AuthData a)), trailing)).
  { rewrite Hval. now apply parseField_bytes_octet_string. }
  assert (Hne : Value ext <> []).
  { intros Hnil. rewrite Hnil in Hdec. discriminate. }
  rewrite (basic_decoded E a h alg sig der others cert Hx5c Hparse
             _ _ _ Hacc Hv Hca Hscan Hne Hdec).
  now rewrite (proj2 (bytes_Equal_eq _ _) eq_refl).
Qed.

(** ** Chained causes *)



(** ** The further properties at concrete inputs *)

Lemma verifyPacked_ignores_other_fields_witness :
  verifyPacked Sample.plain_env
    {| AuthData := AuthData Sample.basic_statement;
       AttStmt := <["ver" := VOther "string"]> (AttStmt Sample.basic_statement) |}
    Sample.hash =
  verifyPacked Sample.plain_env
    {| AuthData := AuthData Sample.basic_statement;
       AttStmt := AttStmt Sample.basic_statement |} Sample.hash.
Proof.
  apply (verifyPacked_ignores_other_fields Sample.plain_env
           (AuthData Sample.basic_statement) (AttStmt Sample.basic_statement)
           "ver" (VOther "string") Sample.hash); discriminate.
Defined.

Lemma verifyPacked_x5c_before_ecdaaKeyId_witness :
  result_kind (snd (verifyPacked Sample.plain_env
      {| AuthData := AuthData Sample.basic_statement;
         AttStmt := <["ecdaaKeyId" := VBytes [B 7]]> (AttStmt Sample.basic_statement) |}
      Sample.hash))
    <> Some unsupported_format.
Proof.
  apply (verifyPacked_x5c_before_ecdaaKeyId Sample.plain_env
           (AuthData Sample.basic_statement) (AttStmt Sample.basic_statement)
           ES256 Sample.some_sig (VBytes [B 7]) Sample.hash).
  - evaluate.
  - evaluate.
  - exists (VArray [VBytes Sample.leaf_der]). evaluate.
Defined.

Lemma verifyPacked_basic_ignores_alg_witness :
  verifyPacked Sample.plain_env
    {| AuthData := AuthData Sample.basic_statement;
       AttStmt := <["alg" := VInt64 (-7)]> (AttStmt Sample.basic_statement) |}
    Sample.hash =
  verifyPacked Sample.plain_env
    {| AuthData := AuthData Sample.basic_statement;
       AttStmt := <["alg" := VInt64 (-257)]> (AttStmt Sample.basic_statement) |}
    Sample.hash.
Proof.
  apply (verifyPacked_basic_ignores_alg Sample.plain_env
           (AuthData Sample.basic_statement) (AttStmt Sample.basic_statement)
           (-7) (-257) Sample.some_sig Sample.hash).
  - evaluate.
  - exists (VArray [VBytes Sample.leaf_der]). evaluate.
Defined.

Lemma verifyPacked_misshapen_x5c_witness :
  verifyPacked Sample.plain_env Sample.misshapen_x5c_statement Sample.hash =
    ([], Failure (WithDebug Sample.protocol_error "invalid x5c for packed")).
Proof.
  apply (verifyPacked_misshapen_x5c Sample.plain_env Sample.misshapen_x5c_statement
           Sample.hash ES256 Sample.some_sig
           (VArray [VOther "string"; VBytes Sample.leaf_der])).
  - evaluate.
  - evaluate.
  - evaluate.
  - right. exists (VOther "string"), [VBytes Sample.leaf_der].
    split; [reflexivity | discriminate].
Defined.

Lemma verifyPacked_uses_leaf_only_witness :
  verifyPacked Sample.plain_env
    {| AuthData := AuthData Sample.basic_statement;
       AttStmt := <["x5c" := VArray [VBytes Sample.leaf_der; VOther "string"]]>
                    (AttStmt Sample.basic_statement) |} Sample.hash =
  verifyPacked Sample.plain_env
    {| AuthData := AuthData Sample.basic_statement;
       AttStmt := <["x5c" := VArray [VBytes Sample.leaf_der]]>
                    (AttStmt Sample.basic_statement) |} Sample.hash.
Proof.
  apply (verifyPacked_uses_leaf_only Sample.plain_env
           (AuthData Sample.basic_statement) (AttStmt Sample.basic_statement)
           ES256 Sample.some_sig (VBytes Sample.leaf_der) [VOther "string"] Sample.hash).
  - evaluate.
  - evaluate.
Defined.

Lemma verifyPacked_unparsable_leaf_witness :
  verifyPacked Sample.no_cert_env Sample.basic_statement Sample.hash =
    ([CallParseCertificate Sample.leaf_der],
     Failure (WithDebugf Sample.protocol_error "invalid x5c for packed: %v"
                [ArgError (X509Error "x509: malformed certificate")])).
Proof.
  apply (verifyPacked_unparsable_leaf Sample.no_cert_env Sample.basic_statement
           Sample.hash ES256 Sample.some_sig Sample.leaf_der []).
  - evaluate.
  - evaluate.
  - evaluate.
  - evaluate.
Defined.

Lemma verifyPacked_wrong_version_witness :
  IsCA Sample.v1_cert = true /\
  snd (verifyPacked Sample.v1_env Sample.basic_statement Sample.hash) =
    Failure (WithDebug Sample.protocol_error "invalid version for certificate").
Proof.
  split; [reflexivity|].
  apply (verifyPacked_wrong_version Sample.v1_env Sample.basic_statement
           Sample.hash ES256 Sample.some_sig Sample.leaf_der [] Sample.v1_cert).
  - evaluate.
  - evaluate.
  - evaluate.
  - evaluate.
  - left. evaluate.
  - evaluate.
Defined.

Lemma verifyPacked_critical_device_model_witness :
  snd (verifyPacked Sample.critical_other_model_env Sample.basic_statement Sample.hash) =
    Failure (critical_extension_error Sample.critical_other_model_env) /\
  unmarshal_calls (fst (verifyPacked Sample.critical_other_model_env
                          Sample.basic_statement Sample.hash)) = [].
Proof.
  apply (verifyPacked_critical_device_model Sample.critical_other_model_env
           Sample.basic_statement Sample.hash ES256 Sample.some_sig Sample.leaf_der []
           Sample.critical_other_model_cert).
  - evaluate.
  - evaluate.
  - evaluate.
  - evaluate.
  - left. evaluate.
  - evaluate.
  - evaluate.
  - constructor. reflexivity.
Defined.

Lemma verifyPacked_undecodable_device_model_witness :
  result_kind (snd (verifyPacked Sample.bad_encoding_env
                      Sample.basic_statement Sample.hash))
    = Some invalid_aaguid_encoding.
Proof.
  apply (verifyPacked_undecodable_device_model Sample.bad_encoding_env
           Sample.basic_statement Sample.hash ES256 Sample.some_sig Sample.leaf_der []
           Sample.bad_encoding_cert ltac:(evaluate) ltac:(evaluate) ltac:(evaluate)
           ltac:(evaluate) [] (Sample.device_model false [B 0x02; B 0x01; B 0x00])
           (StructuralError "tags don't match")).
  - left. evaluate.
  - evaluate.
  - evaluate.
  - evaluate.
  - repeat constructor.
  - discriminate.
  - evaluate.
Defined.

Lemma verifyPacked_accepts_iff_witness :
  snd (verifyPacked Sample.same_model_env Sample.basic_statement Sample.hash) = Success.
Proof.
  apply (verifyPacked_accepts_iff Sample.same_model_env Sample.basic_statement
           Sample.hash ES256 Sample.some_sig Sample.leaf_der [] Sample.same_model_cert
           ltac:(evaluate) ltac:(evaluate) ltac:(evaluate) ltac:(evaluate)).
  repeat split.
  - right. evaluate.
  - repeat constructor.
  - right. exists [B 0xde; B 0xad]. evaluate.
Defined.

Lemma verifyPacked_certificate_errors_follow_signature_witness :
  signature_accepted Sample.ca_accepting_env Sample.ca_cert
    (Raw (AuthData Sample.basic_statement) ++ Sample.hash) Sample.some_sig.
Proof.
  apply (verifyPacked_certificate_errors_follow_signature Sample.ca_accepting_env
           Sample.basic_statement Sample.hash ES256 Sample.some_sig Sample.leaf_der []
           Sample.ca_cert ltac:(evaluate) ltac:(evaluate) ltac:(evaluate)
           ltac:(evaluate) invalid_certificate_profile).
  - evaluate.
  - now left.
Defined.

Lemma verifyPacked_self_unsupported_key_type_witness :
  result_kind (snd (verifyPacked (Sample.self_env ReturnsError)
                      (Sample.self_statement_with (KeyOther "*rsa.PublicKey") ES256)
                      Sample.hash))
    = Some unsupported_key_or_algorithm.
Proof.
  apply (verifyPacked_self_unsupported_key_type (Sample.self_env ReturnsError)
           (Sample.self_statement_with (KeyOther "*rsa.PublicKey") ES256)
           Sample.hash ES256 Sample.some_sig).
  - evaluate.
  - evaluate.
  - evaluate.
  - evaluate.
  - intros v. evaluate.
Defined.


Lemma verifyPacked_success_needs_certificate_witness :
  exists alg sig der others cert,
    AttStmt Sample.basic_statement !! "alg" = Some (VInt64 alg) /\
    AttStmt Sample.basic_statement !! "sig" = Some (VBytes sig) /\
    AttStmt Sample.basic_statement !! "x5c" = Some (VArray (VBytes der :: others)) /\
    x509_ParseCertificate Sample.plain_env der = inr cert /\
    signature_accepted Sample.plain_env cert
      (Raw (AuthData Sample.basic_statement) ++ Sample.hash) sig /\
    Version cert = 3 /\
    IsCA cert = false.
Proof.
  apply (verifyPacked_success_needs_certificate Sample.plain_env
           Sample.basic_statement Sample.hash).
  evaluate.
Defined.

Lemma verifyPacked_panics_only_witness :
  snd (verifyPacked (Sample.self_env ReturnsError)
         (Sample.self_statement_with (KeyECDSA (Some Sample.paramless_key)) ES256)
         Sample.hash) = Panic NilDereference /\
  exists key,
    COSEKey (AttestedCredentialData (AuthData
      (Sample.self_statement_with (KeyECDSA (Some Sample.paramless_key)) ES256)))
    = KeyECDSA key /\
    (key = None \/
     exists v, key = Some v /\
       (Curve v = None \/ exists c, Curve v = Some c /\ curve_Params_Name c = None)).
Proof.
  split; [evaluate|].
  destruct (verifyPacked_panics_only (Sample.self_env ReturnsError)
              (Sample.self_statement_with (KeyECDSA (Some Sample.paramless_key)) ES256)
              Sample.hash NilDereference ltac:(evaluate))
    as [[_ H] | [_ (key & Hkey & [[_ H] | [H _]])]].
  - discriminate.
  - exists key. split; assumption.
  - discriminate.
Defined.

Lemma verifyPacked_accepts_encoded_aaguid_witness :
  snd (verifyPacked Sample.same_model_env Sample.basic_statement Sample.hash) = Success.
Proof.
  apply (verifyPacked_accepts_encoded_aaguid Sample.same_model_env Sample.basic_statement
           Sample.hash ES256 Sample.some_sig Sample.leaf_der [] Sample.same_model_cert
           [Sample.other_model]
           (Sample.device_model false
              (der_octet_string Sample.aaguid_zero ++ [B 0xde; B 0xad]))
           [B 0xde; B 0xad]).
  - evaluate.
  - evaluate.
  - evaluate.
  - evaluate.
  - right. evaluate.
  - evaluate.
  - evaluate.
  - evaluate.
  - repeat constructor.
  - vm_compute. lia.
  - evaluate.
Defined.

